(** * Smart attendance (IP_Smart_LMS): the request handlers of [main.py]

    A shallow embedding of the FastAPI handlers of [src/main.py] over the
    two MongoDB collections of [src/db.py], and the properties the
    specification states about them.

    Modelling conventions.
    - A Python [str] is a [string]; only equality, [startswith], [split]
      and [strip] are used on them.  Header values reach the handler
      decoded as latin-1, one character per byte, which is what [ascii]
      holds.
    - A [datetime] is the number of microseconds since [datetime.min]
      (0001-01-01T00:00:00), a [Z]; [datetime] arithmetic raises
      [OverflowError] outside years 1..9999 and the model says so.
    - A collection is the list of its documents in insertion order, as
      the store holds them: [insert_one] appends the document with its
      datetimes cut to the millisecond, which is all a BSON datetime
      keeps; [find] filters, [sort] is any ordering the driver may
      return (class [Driver]), [to_list(length=n)] keeps the first [n]
      documents.
    - A handler function is the handler run alone, with no other
      request served between its awaits.  Where that matters, the
      parts before and after an await are given as functions of their
      own ([student_attend_decide], [student_attend_commit]).
    - A raised exception is the left summand of the handler's result. *)

From Stdlib Require Import ZArith QArith Qround String Ascii Sorted.
From stdpp Require Import base list sorting gmap strings pretty.

Local Open Scope string_scope.
Local Open Scope Z_scope.

(** ** Python values *)

(** The exceptions the handlers can leave with. *)
Inductive exn : Type :=
  | AttributeError     (* attribute access on None *)
  | OverflowError      (* datetime arithmetic out of range *)
  | IndexError         (* sequence index out of range *)
  | HTTPException (status_code : Z) (detail : string).

(** [s.startswith(p)] *)
Definition startswith (s p : string) : bool := String.prefix p s.

(** ** IP classification, [classify_ip] *)

Inductive IpStatus : Type := DEV | NORMAL | WARNING | SUSPICIOUS.

#[global] Instance IpStatus_eq_dec : EqDecision IpStatus.
Proof. solve_decision. Defined.

(** The string each status is stored as in the [ip_status] field. *)
Definition status_name (s : IpStatus) : string :=
  match s with
  | DEV => "DEV" | NORMAL => "NORMAL"
  | WARNING => "WARNING" | SUSPICIOUS => "SUSPICIOUS"
  end.

Definition CAMPUS_PREFIXES : list string := ["210.108.18."].

Definition classify_ip (ip : string) : IpStatus * string :=
  if startswith ip "127." || String.eqb ip "::1" then
    (DEV, "💻 로컬 개발 환경 (교내 여부 판단 안 함)")
  else if existsb (fun prefix => startswith ip prefix) CAMPUS_PREFIXES then
    (NORMAL, "✅ 교내 WiFi (신뢰도 높음)")
  else if startswith ip "10." || startswith ip "192.168." then
    (WARNING, "⚠ 인접 강의실/내부망 (확인 필요)")
  else
    (SUSPICIOUS, "❗ 외부망 (LTE 등) 의심됨").

(** ** The client address, [get_client_ip] *)

(** [request.client]: the [(host, port)] pair of the socket peer.  The
    host is optional so that [host or "unknown"] can be read as written. *)
Record Address : Type := { host : option string; port : Z }.

(** What the handlers read of a [Request]: the header list (names in
    lower case, as ASGI delivers them) and [request.client], which is
    [None] when the server has no peer address. *)
Record Request : Type :=
  { headers : list (string * string); client : option Address }.

(** [request.headers.get(key)]: the value of the first header named [key]. *)
Fixpoint headers_get (hs : list (string * string)) (key : string)
  : option string :=
  match hs with
  | [] => None
  | (k, v) :: rest => if String.eqb k key then Some v else headers_get rest key
  end.

(** [c.isspace()] for a character below 256. *)
Definition isspace (c : ascii) : bool :=
  let n := nat_of_ascii c in
  ((9 <=? n) && (n <=? 13) || (28 <=? n) && (n <=? 32)
   || (n =? 133) || (n =? 160))%nat.

Fixpoint lstrip (s : string) : string :=
  match s with
  | String c t => if isspace c then lstrip t else s
  | EmptyString => EmptyString
  end.

Fixpoint rstrip (s : string) : string :=
  match s with
  | String c t =>
      match rstrip t with
      | EmptyString => if isspace c then EmptyString else String c EmptyString
      | t' => String c t'
      end
  | EmptyString => EmptyString
  end.

(** [s.strip()] *)
Definition strip (s : string) : string := rstrip (lstrip s).

(** [s.split(sep)[0]]: what stands before the first [sep]. *)
Fixpoint split_first (sep : ascii) (s : string) : string :=
  match s with
  | String c t => if Ascii.eqb c sep then EmptyString
                  else String c (split_first sep t)
  | EmptyString => EmptyString
  end.

(** Truth value of a [str]. *)
Definition truthy (s : string) : bool := negb (String.eqb s "").

(** [x or y] where [x] is a [str] or [None]. *)
Definition or_str (x : option string) (y : string) : string :=
  match x with
  | Some s => if truthy s then s else y
  | None => y
  end.

Definition get_client_ip (request : Request) : exn + string :=
  let xff := headers_get (headers request) "x-forwarded-for" in
  let peer :=
    match client request with
    | Some a => inr (or_str (host a) "unknown")
    | None => inl AttributeError          (* [None.host] *)
    end in
  match xff with
  | Some x => if truthy x then inr (strip (split_first "," x)) else peer
  | None => peer
  end.

(** ** Dates and times *)

Definition US_PER_MINUTE : Z := 60000000.
Definition US_PER_DAY : Z := 86400000000.

(** [datetime.max], 9999-12-31T23:59:59.999999, whose day has ordinal 3652059. *)
Definition DATETIME_MAX : Z := 3652059 * US_PER_DAY - 1.

(** [timedelta(minutes=m)]: a duration in microseconds; its whole days
    must lie within 999999999 of zero. *)
Definition timedelta_minutes (m : Z) : exn + Z :=
  let us := m * US_PER_MINUTE in
  let days := us / US_PER_DAY in
  if (-999999999 <=? days) && (days <=? 999999999) then inr us
  else inl OverflowError.

(** [t + d] on a [datetime] and a [timedelta]. *)
Definition datetime_add (t d : Z) : exn + Z :=
  let r := t + d in
  if (0 <=? r) && (r <=? DATETIME_MAX) then inr r else inl OverflowError.

(** Month and day of the day numbered [days] from 0001-01-01, in the
    proleptic Gregorian calendar. *)
Definition month_day (days : Z) : Z * Z :=
  let z := days + 306 in
  let era := z / 146097 in
  let doe := z - era * 146097 in
  let yoe := (doe - doe / 1460 + doe / 36524 - doe / 146096) / 365 in
  let doy := doe - (365 * yoe + yoe / 4 - yoe / 100) in
  let mp := (5 * doy + 2) / 153 in
  let d := doy - (153 * mp + 2) / 5 + 1 in
  let m := if mp <? 10 then mp + 3 else mp - 9 in
  (m, d).

Definition digit_char (n : Z) : ascii := ascii_of_nat (48 + Z.to_nat n).

(** A number below 100 on two digits. *)
Definition two_digits (n : Z) : string :=
  String (digit_char (n / 10)) (String (digit_char (n mod 10)) EmptyString).

(** [t.strftime("%m/%d %H:%M")] *)
Definition strftime_md_HM (t : Z) : string :=
  let '(m, d) := month_day (t / US_PER_DAY) in
  let us := t mod US_PER_DAY in
  two_digits m ++ "/" ++ two_digits d ++ " "
  ++ two_digits (us / (60 * US_PER_MINUTE)) ++ ":"
  ++ two_digits (us / US_PER_MINUTE mod 60).

(** ** The two collections of [db.py] *)

(** The twelve bytes of a BSON [ObjectId]. *)
Definition oid : Type := list ascii.

Module Code.
(** A document of [code_collection], with the [_id] the driver gives it. *)
Record doc : Type := mk
  { _id : oid;
    session_date : string;
    attendance_code : string;
    created_at : Z;
    valid_until : Z }.
End Code.

Module Attend.
(** A document of [attendance_collection].  The driver adds an [_id] to
    it as well, which no handler reads; it is left out. *)
Record doc : Type := mk
  { student_name : string;
    session_date : string;
    attendance_code : string;
    ip : string;
    ip_status : IpStatus;
    ip_status_message : string;
    timestamp : Z }.
End Attend.

Record Database : Type :=
  { code_collection : list Code.doc;
    attendance_collection : list Attend.doc }.

(** [sort(key, 1)] and [sort(key, -1)]. *)
Inductive Direction : Type := Asc | Desc.

Definition key_le (d : Direction) (x y : Z) : Prop :=
  match d with Asc => x <= y | Desc => y <= x end.

(** The order [d] on documents compared by [key]. *)
Definition doc_le {A} (key : A -> Z) (d : Direction) : relation A :=
  fun a b => key_le d (key a) (key b).

(** What the handlers use of the driver (motor and bson).  A sorted
    cursor yields the documents it was given, each once, ordered by the
    key; how it orders documents of equal key is the server's business.
    [ObjectId s] is [None] when [bson.ObjectId(s)] raises. *)
Class Driver : Type :=
  { ObjectId : string -> option oid;
    cursor_sort : forall {A : Type}, (A -> Z) -> Direction -> list A -> list A;
    cursor_sort_perm : forall A (key : A -> Z) d l, cursor_sort key d l ≡ₚ l;
    cursor_sort_sorted : forall A (key : A -> Z) d l,
      StronglySorted (doc_le key d) (cursor_sort key d l) }.

(** [find_one(filter)]: the first document the filter accepts. *)
Definition find_one {A} (P : A -> Prop) `{forall x, Decision (P x)}
  (coll : list A) : option A :=
  snd <$> list_find P coll.

(** A [datetime] as a BSON document keeps it: whole milliseconds, the
    microseconds below them dropped. *)
Definition floor_ms (t : Z) : Z := t / 1000 * 1000.

(** What the store holds of a document handed to it. *)
Class Stored (A : Type) : Type := stored : A -> A.

#[global] Instance Code_stored : Stored Code.doc :=
  fun c =>
    Code.mk (Code._id c) (Code.session_date c) (Code.attendance_code c)
      (floor_ms (Code.created_at c)) (floor_ms (Code.valid_until c)).

#[global] Instance Attend_stored : Stored Attend.doc :=
  fun a =>
    Attend.mk (Attend.student_name a) (Attend.session_date a)
      (Attend.attendance_code a) (Attend.ip a) (Attend.ip_status a)
      (Attend.ip_status_message a) (floor_ms (Attend.timestamp a)).

(** [insert_one(doc)] *)
Definition insert_one {A} `{Stored A} (d : A) (coll : list A) : list A :=
  coll ++ [stored d].

(** Exceptions propagate: [let? x := m in k] runs [k] on the value of
    [m], or leaves with the exception [m] raised. *)
Definition ebind {A B} (m : exn + A) (k : A -> exn + B) : exn + B :=
  match m with
  | inl e => inl e
  | inr a => k a
  end.

Notation "'let?' x := m 'in' k" := (ebind m (fun x => k))
  (at level 10, x name, m at level 100, k at level 200, only parsing).

(** ** Code generation, [generate_code] *)

(** [l[i]], with Python's negative indices. *)
Definition getitem {A} (l : list A) (i : Z) : exn + A :=
  let n := Z.of_nat (length l) in
  let j := if i <? 0 then i + n else i in
  if (0 <=? j) && (j <? n) then
    match l !! Z.to_nat j with
    | Some x => inr x
    | None => inl IndexError
    end
  else inl IndexError.

(** [random.choices(population, k=k)]: [population[floor(random() * n)]]
    for each of [k] draws.  [random i] is what the [i]-th call of
    [random()] returns from the generator's current state on. *)
Fixpoint choices_from {A} (random : nat -> Q) (population : list A)
  (i k : nat) : exn + list A :=
  match k with
  | O => inr []
  | S k' =>
      let n := inject_Z (Z.of_nat (length population)) in
      let? x := getitem population (Qfloor (random i * n)) in
      let? xs := choices_from random population (S i) k' in
      inr (x :: xs)
  end.

Definition choices {A} (random : nat -> Q) (population : list A) (k : nat)
  : exn + list A :=
  choices_from random population 0 k.

(** [string.digits] *)
Definition digits : string := "0123456789".

Definition generate_code (random : nat -> Q) (length : nat) : exn + string :=
  let? cs := choices random (list_ascii_of_string digits) length in
  inr (string_of_list_ascii cs).

(** ** The student's pages *)

Module Session.
(** An entry of the session picker. *)
Record entry : Type := mk { session_date : string; end_str : string }.
End Session.

Section Handlers.
Context `{Driver}.

(** The [for c in codes] loop of [get_active_sessions]. *)
Fixpoint sessions_loop (codes : list Code.doc)
  (sessions : list Session.entry) (seen_dates : gset string)
  : list Session.entry :=
  match codes with
  | [] => sessions
  | c :: rest =>
      let sd := Code.session_date c in
      if decide (sd ∈ seen_dates) then sessions_loop rest sessions seen_dates
      else
        sessions_loop rest
          (sessions ++ [Session.mk sd (strftime_md_HM (Code.valid_until c))])
          ({[sd]} ∪ seen_dates)
  end.

Definition get_active_sessions (now : Z) (db : Database)
  : list Session.entry :=
  let cursor :=
    cursor_sort Code.valid_until Asc
      (filter (fun c => now < Code.valid_until c) (code_collection db)) in
  let codes := take 100 cursor in
  sessions_loop codes [] ∅.

(** The three results of a submission and the text shown for each. *)
Inductive Outcome : Type := Recorded | AlreadyRecorded | CodeInvalidOrExpired.

Definition result_text (o : Outcome) : string :=
  match o with
  | CodeInvalidOrExpired =>
      "출석 코드가 유효하지 않거나 시간이 만료되었습니다."
  | AlreadyRecorded => "이미 출석이 처리되었습니다."
  | Recorded => "출석이 정상적으로 처리되었습니다."
  end.

(** The context [student.html] is rendered with. *)
Record StudentPage : Type :=
  { result : option string;
    ip_status_message : option string;
    sessions : list Session.entry }.

Definition student_page (now : Z) (db : Database) : StudentPage :=
  {| result := None; ip_status_message := None;
     sessions := get_active_sessions now db |}.

(** [POST /student/attend].  [now] is the clock read of the handler and
    [now_sessions] the later one of [get_active_sessions].  The handler
    returns its page and leaves the database as the second component. *)
Definition student_attend (request : Request)
  (student_name session_date attendance_code : string)
  (now now_sessions : Z) (db : Database) : (exn + StudentPage) * Database :=
  match get_client_ip request with
  | inl e => (inl e, db)
  | inr client_ip =>
      let '(ip_status, ip_status_message) := classify_ip client_ip in
      let code_doc :=
        find_one
          (fun c => Code.session_date c = session_date
                    ∧ Code.attendance_code c = attendance_code
                    ∧ now < Code.valid_until c)
          (code_collection db) in
      let '(result, db') :=
        match code_doc with
        | None => (result_text CodeInvalidOrExpired, db)
        | Some _ =>
            let existing :=
              find_one
                (fun a => Attend.session_date a = session_date
                          ∧ Attend.attendance_code a = attendance_code
                          ∧ Attend.student_name a = student_name)
                (attendance_collection db) in
            match existing with
            | Some _ => (result_text AlreadyRecorded, db)
            | None =>
                let attend_doc :=
                  Attend.mk student_name session_date attendance_code
                    client_ip ip_status ip_status_message now in
                (result_text Recorded,
                 {| code_collection := code_collection db;
                    attendance_collection :=
                      insert_one attend_doc (attendance_collection db) |})
            end
        end in
      (inr {| result := Some result;
              ip_status_message := Some ip_status_message;
              sessions := get_active_sessions now_sessions db' |}, db')
  end.

(** The same handler in the two parts its last write divides it in.
    [student_attend_decide] is lines 110 to 144: the address, the two
    look-ups, and with them the text to show, the message, and the
    document to insert if there is one.  [student_attend_commit] is the
    insert of line 145, on the database as it is when the insert runs. *)
Definition student_attend_decide (request : Request)
  (student_name session_date attendance_code : string) (now : Z)
  (db : Database) : exn + (string * string * option Attend.doc) :=
  match get_client_ip request with
  | inl e => inl e
  | inr client_ip =>
      let '(ip_status, ip_status_message) := classify_ip client_ip in
      let code_doc :=
        find_one
          (fun c => Code.session_date c = session_date
                    ∧ Code.attendance_code c = attendance_code
                    ∧ now < Code.valid_until c)
          (code_collection db) in
      match code_doc with
      | None =>
          inr (result_text CodeInvalidOrExpired, ip_status_message, None)
      | Some _ =>
          let existing :=
            find_one
              (fun a => Attend.session_date a = session_date
                        ∧ Attend.attendance_code a = attendance_code
                        ∧ Attend.student_name a = student_name)
              (attendance_collection db) in
          match existing with
          | Some _ =>
              inr (result_text AlreadyRecorded, ip_status_message, None)
          | None =>
              inr (result_text Recorded, ip_status_message,
                   Some (Attend.mk student_name session_date attendance_code
                           client_ip ip_status ip_status_message now))
          end
      end
  end.

Definition student_attend_commit (attend_doc : option Attend.doc)
  (db : Database) : Database :=
  match attend_doc with
  | Some d =>
      {| code_collection := code_collection db;
         attendance_collection := insert_one d (attendance_collection db) |}
  | None => db
  end.

(** ** The teacher's pages *)

Record TeacherPage : Type :=
  { active_codes : list Code.doc; past_codes : list Code.doc }.

Definition teacher_page (now : Z) (db : Database) : TeacherPage :=
  let active_codes_cursor :=
    cursor_sort Code.valid_until Asc
      (filter (fun c => now < Code.valid_until c) (code_collection db)) in
  let past_codes_cursor :=
    cursor_sort Code.valid_until Desc
      (filter (fun c => Code.valid_until c <= now) (code_collection db)) in
  {| active_codes := take 20 active_codes_cursor;
     past_codes := take 30 past_codes_cursor |}.

Record DetailPage : Type :=
  { code : Code.doc;
    is_active : bool;
    attendance_list : list Attend.doc;
    suspicious_list : list Attend.doc }.

(** [GET /teacher/code/{code_id}] *)
Definition teacher_code_detail (code_id : string) (now : Z) (db : Database)
  : exn + DetailPage :=
  match ObjectId code_id with
  | None => inl (HTTPException 404 "잘못된 코드 ID 입니다.")
  | Some oid =>
      match find_one (fun c => Code._id c = oid) (code_collection db) with
      | None => inl (HTTPException 404 "출석 코드 정보를 찾을 수 없습니다.")
      | Some code_doc =>
          let attendance_cursor :=
            cursor_sort Attend.timestamp Desc
              (filter
                 (fun a => Attend.session_date a = Code.session_date code_doc
                           ∧ Attend.attendance_code a
                             = Code.attendance_code code_doc)
                 (attendance_collection db)) in
          let suspicious_cursor :=
            cursor_sort Attend.timestamp Desc
              (filter
                 (fun a => Attend.session_date a = Code.session_date code_doc
                           ∧ Attend.attendance_code a
                             = Code.attendance_code code_doc
                           ∧ Attend.ip_status a ≠ NORMAL)
                 (attendance_collection db)) in
          inr {| code := code_doc;
                 is_active := bool_decide (now < Code.valid_until code_doc);
                 attendance_list := take 500 attendance_cursor;
                 suspicious_list := take 500 suspicious_cursor |}
      end
  end.

End Handlers.

Record Redirect : Type := { url : string; status_code : Z }.

(** [POST /teacher/create-code].  [random] is the generator's stream and
    [new_id] the [_id] the driver gives the inserted document. *)
Definition create_code (random : nat -> Q) (new_id : oid)
  (session_date : string) (minutes_valid : Z) (now : Z) (db : Database)
  : (exn + Redirect) * Database :=
  let run :=
    let? code := generate_code random 6 in
    let? delta := timedelta_minutes minutes_valid in
    let? valid_until := datetime_add now delta in
    inr (Code.mk new_id session_date code now valid_until) in
  match run with
  | inl e => (inl e, db)
  | inr doc =>
      (inr {| url := "/teacher"; status_code := 303 |},
       {| code_collection := insert_one doc (code_collection db);
          attendance_collection := attendance_collection db |})
  end.

(** ** A driver to run the handlers with *)

#[global] Instance key_le_dec d x y : Decision (key_le d x y).
Proof. destruct d; simpl; apply _. Defined.

#[global] Instance doc_le_dec {A} (key : A -> Z) d a b :
  Decision (doc_le key d a b).
Proof. unfold doc_le; apply _. Defined.

#[global] Instance doc_le_trans {A} (key : A -> Z) d :
  Transitive (doc_le key d).
Proof. intros a b c; unfold doc_le; destruct d; simpl; lia. Qed.

#[global] Instance doc_le_total {A} (key : A -> Z) d : Total (doc_le key d).
Proof. intros a b; unfold doc_le; destruct d; simpl; lia. Qed.

#[global] Instance doc_le_refl {A} (key : A -> Z) d : Reflexive (doc_le key d).
Proof. intros a; unfold doc_le; destruct d; simpl; lia. Qed.

(** The value of a hexadecimal digit. *)
Definition hex_value (c : ascii) : option N :=
  let n := N_of_ascii c in
  (if (48 <=? n) && (n <=? 57) then Some (n - 48)
   else if (97 <=? n) && (n <=? 102) then Some (n - 87)
   else if (65 <=? n) && (n <=? 70) then Some (n - 55)
   else None)%N.

Fixpoint fromhex (s : string) : option (list ascii) :=
  match s with
  | EmptyString => Some []
  | String a (String b t) =>
      match hex_value a, hex_value b, fromhex t with
      | Some hi, Some lo, Some rest => Some (ascii_of_N (16 * hi + lo) :: rest)
      | _, _, _ => None
      end
  | String _ EmptyString => None
  end.

(** An [ObjectId] from its 24 hexadecimal digits. *)
Definition hex_ObjectId (s : string) : option oid :=
  if (String.length s =? 24)%nat then fromhex s else None.

(** A driver whose cursors sort by merging. *)
Definition merge_sort_driver : Driver :=
  {| ObjectId := hex_ObjectId;
     cursor_sort A key d l := merge_sort (doc_le key d) l;
     cursor_sort_perm A key d l := merge_sort_Permutation (doc_le key d) l;
     cursor_sort_sorted A key d l :=
       StronglySorted_merge_sort (doc_le key d) l |}.

#[global] Instance Code_doc_eq_dec : EqDecision Code.doc.
Proof. solve_decision. Defined.

#[global] Instance Attend_doc_eq_dec : EqDecision Attend.doc.
Proof. solve_decision. Defined.

(** ** The vocabulary of the specification *)

(** [s] starts with [p]: the specification's reading of a prefix. *)
Definition starts_with (s p : string) : Prop := exists t, s = (p ++ t)%string.

Definition is_dev (ip : string) : Prop := starts_with ip "127." \/ ip = "::1".

Definition is_campus (ip : string) : Prop :=
  exists prefix, prefix ∈ CAMPUS_PREFIXES /\ starts_with ip prefix.

Definition is_private (ip : string) : Prop :=
  starts_with ip "10." \/ starts_with ip "192.168.".

(** The four rules of the classifier in their order of precedence, as
    the specification words them. *)
Inductive Classified (ip : string) : IpStatus -> Prop :=
  | rule_dev : is_dev ip -> Classified ip DEV
  | rule_campus : ~ is_dev ip -> is_campus ip -> Classified ip NORMAL
  | rule_private :
      ~ is_dev ip -> ~ is_campus ip -> is_private ip -> Classified ip WARNING
  | rule_other :
      ~ is_dev ip -> ~ is_campus ip -> ~ is_private ip ->
      Classified ip SUSPICIOUS.

(** The message that goes with each status. *)
Definition status_message (s : IpStatus) : string :=
  match s with
  | DEV => "💻 로컬 개발 환경 (교내 여부 판단 안 함)"
  | NORMAL => "✅ 교내 WiFi (신뢰도 높음)"
  | WARNING => "⚠ 인접 강의실/내부망 (확인 필요)"
  | SUSPICIOUS => "❗ 외부망 (LTE 등) 의심됨"
  end.

(** Some stored code matches the pair and has not expired at [now]. *)
Definition has_active_code (db : Database) (session_date attendance_code : string)
  (now : Z) : Prop :=
  exists c, c ∈ code_collection db
            /\ Code.session_date c = session_date
            /\ Code.attendance_code c = attendance_code
            /\ now < Code.valid_until c.

(** Some stored attendance record carries the triple. *)
Definition has_record (db : Database)
  (student_name session_date attendance_code : string) : Prop :=
  exists a, a ∈ attendance_collection db
            /\ Attend.student_name a = student_name
            /\ Attend.session_date a = session_date
            /\ Attend.attendance_code a = attendance_code.

(** The database after one more attendance record. *)
Definition with_attendance (db : Database) (a : Attend.doc) : Database :=
  {| code_collection := code_collection db;
     attendance_collection := attendance_collection db ++ [a] |}.

(** [res] holds the first [n] documents of [all] in the order [d] of
    [key]: as many as [all] has, up to [n]; in order; and with the
    documents left out, [rest], all coming after them. *)
Definition first_sorted {A} (key : A -> Z) (d : Direction) (n : nat)
  (all res : list A) : Prop :=
  length res = Nat.min n (length all)
  /\ exists rest,
       res ++ rest ≡ₚ all /\ StronglySorted (doc_le key d) (res ++ rest).

(** The records of a code: those with its session date and code value. *)
Definition records_of (code_doc : Code.doc) (db : Database) : list Attend.doc :=
  filter (fun a => Attend.session_date a = Code.session_date code_doc
                   /\ Attend.attendance_code a = Code.attendance_code code_doc)
    (attendance_collection db).

(** Those of them whose status is not NORMAL. *)
Definition flagged_of (code_doc : Code.doc) (db : Database) : list Attend.doc :=
  filter (fun a => Attend.ip_status a <> NORMAL) (records_of code_doc db).

(** The picker entry made of a code. *)
Definition entry_of (c : Code.doc) : Session.entry :=
  Session.mk (Code.session_date c) (strftime_md_HM (Code.valid_until c)).

(** The codes the loop keeps: those whose session date is neither in
    [seen] nor carried by a code earlier in the list. *)
Fixpoint first_per_date (seen : gset string) (codes : list Code.doc)
  : list Code.doc :=
  match codes with
  | [] => []
  | c :: rest =>
      if decide (Code.session_date c ∈ seen) then first_per_date seen rest
      else c :: first_per_date ({[Code.session_date c]} ∪ seen) rest
  end.

(** A decimal digit, "0" to "9". *)
Definition is_digit (c : ascii) : Prop :=
  (48 <= nat_of_ascii c <= 57)%nat.

(** What [random()] promises of each value it returns. *)
Definition unit_draws (random : nat -> Q) : Prop :=
  forall i, (0 <= random i)%Q /\ (random i < 1)%Q.

(** The digit the [i]-th draw selects. *)
Definition drawn_digit (random : nat -> Q) (i : nat) : ascii :=
  digit_char (Qfloor (random i * 10)).

(** The triple a record is looked up by. *)
Definition triple_of (a : Attend.doc) : string * string * string :=
  (Attend.student_name a, Attend.session_date a, Attend.attendance_code a).

(** No two stored records carry the same triple. *)
Definition unique_triples (db : Database) : Prop :=
  NoDup (triple_of <$> attendance_collection db).

(** Every record was made while a stored code for its pair was valid. *)
Definition records_in_time (db : Database) : Prop :=
  forall a, a ∈ attendance_collection db ->
    has_active_code db (Attend.session_date a) (Attend.attendance_code a)
      (Attend.timestamp a).

(** Every record holds the classification of the address it holds. *)
Definition records_classified (db : Database) : Prop :=
  forall a, a ∈ attendance_collection db ->
    (Attend.ip_status a, Attend.ip_status_message a)
    = classify_ip (Attend.ip a).

(** Six characters, each a digit. *)
Definition six_digits (code : string) : Prop :=
  String.length code = 6%nat /\ Forall is_digit (list_ascii_of_string code).

Definition codes_six_digits (db : Database) : Prop :=
  forall c, c ∈ code_collection db -> six_digits (Code.attendance_code c).

(** Nothing but whitespace. *)
Definition all_space (s : string) : Prop :=
  Forall (fun c => isspace c = true) (list_ascii_of_string s).

(** Neither the first nor the last character is whitespace. *)
Definition trimmed (s : string) : Prop :=
  (forall c t, s = String c t -> isspace c = false)
  /\ (forall t c, s = (t ++ String c EmptyString)%string -> isspace c = false).

(** The databases the two writing handlers can make, from the empty one:
    [create_code] when it returns, [student_attend] whatever it answers. *)
Inductive reachable `{Driver} : Database -> Prop :=
  | reach_empty :
      reachable {| code_collection := []; attendance_collection := [] |}
  | reach_create db random new_id session_date minutes_valid now r db' :
      reachable db ->
      create_code random new_id session_date minutes_valid now db = (r, db') ->
      reachable db'
  | reach_attend db request student_name session_date attendance_code
      now now_sessions r db' :
      reachable db ->
      student_attend request student_name session_date attendance_code
        now now_sessions db = (r, db') ->
      reachable db'.

(** ** A morning of class, to run the handlers on *)

(** 2024-03-01 09:00, the 738946th day of the calendar. *)
Definition T0 : Z := 738945 * US_PER_DAY + 540 * US_PER_MINUTE.

Definition minutes (n : Z) : Z := n * US_PER_MINUTE.

Definition sample_code_id : string := "65e19c2a5f1b2c3d4e5f6071".

Definition sample_oid : oid := default [] (hex_ObjectId sample_code_id).

(** Draws that select the digits 4, 8, 2, 9, 1, 3, then 0 for ever. *)
Definition sample_draws (i : nat) : Q :=
  inject_Z (nth i [4; 8; 2; 9; 1; 3] 0) / 10.

Definition empty_db : Database :=
  {| code_collection := []; attendance_collection := [] |}.

(** The code the teacher creates at [T0], valid for ten minutes. *)
Definition sample_code : Code.doc :=
  Code.mk sample_oid "2024-03-01" "482913" T0 (T0 + minutes 10).

Definition db_created : Database :=
  {| code_collection := [sample_code]; attendance_collection := [] |}.

(** Alice, on the campus network behind a proxy. *)
Definition alice_request : Request :=
  {| headers := [("host", "lms.example");
                 ("x-forwarded-for", " 210.108.18.50 , 10.0.0.7")];
     client := Some {| host := Some "10.0.0.7"; port := 41234 |} |}.

(** Bob, from outside, straight to the server. *)
Definition bob_request : Request :=
  {| headers := [("host", "lms.example")];
     client := Some {| host := Some "8.8.8.8"; port := 50500 |} |}.

Definition alice_doc : Attend.doc :=
  Attend.mk "Alice" "2024-03-01" "482913" "210.108.18.50" NORMAL
    (classify_ip "210.108.18.50").2 (T0 + minutes 1).

Definition db_alice : Database :=
  {| code_collection := [sample_code]; attendance_collection := [alice_doc] |}.

(** A second code for the same session, made at 09:03. *)
Definition second_code : Code.doc :=
  Code.mk (default [] (hex_ObjectId "65e19cde5f1b2c3d4e5f6072"))
    "2024-03-01" "771204" (T0 + minutes 3) (T0 + minutes 13).

Definition db_two_codes : Database :=
  {| code_collection := [sample_code; second_code];
     attendance_collection := [alice_doc] |}.

(** Alice's record under the second code, made at 09:04. *)
Definition alice_second_doc : Attend.doc :=
  Attend.mk "Alice" "2024-03-01" "771204" "210.108.18.50" NORMAL
    (classify_ip "210.108.18.50").2 (T0 + minutes 4).

(** Both codes valid, and Alice recorded under both. *)
Definition db_both_codes : Database :=
  {| code_collection := [sample_code; second_code];
     attendance_collection := [alice_doc; alice_second_doc] |}.

(** The records of a code at review: campus, local and outside. *)
Definition db_review : Database :=
  {| code_collection := [sample_code];
     attendance_collection :=
       [alice_doc;
        Attend.mk "Dana" "2024-03-01" "482913" "127.0.0.1" DEV
          (classify_ip "127.0.0.1").2 (T0 + minutes 2);
        Attend.mk "Bob" "2024-03-01" "482913" "8.8.8.8" SUSPICIOUS
          (classify_ip "8.8.8.8").2 (T0 + minutes 3)] |}.

(** A lecture hall: 501 students record the one code from outside, a
    millisecond apart. *)
Definition db_crowded : Database :=
  {| code_collection := [sample_code];
     attendance_collection :=
       (fun i : nat =>
          Attend.mk ("student" ++ pretty i) "2024-03-01" "482913" "8.8.8.8"
            SUSPICIOUS (classify_ip "8.8.8.8").2
            (T0 + 1000 * (1 + Z.of_nat i)))
       <$> seq 0 501 |}.

(** The [i]-th identifier of a run of them. *)
Definition oid_number (i : nat) : oid :=
  (take 10 sample_oid
   ++ [ascii_of_nat (i / 256); ascii_of_nat (i mod 256)])%list.

(** A code for the session [sd] expiring [i] milliseconds after 09:10. *)
Definition code_expiring (sd : string) (i : nat) : Code.doc :=
  Code.mk (oid_number i) sd "482913" T0
    (T0 + minutes 10 + 1000 * Z.of_nat i).

(** A busy term: 21 sessions with a code still valid at [T0]. *)
Definition db_busy : Database :=
  {| code_collection :=
       (fun i : nat => code_expiring ("session " ++ pretty i) i) <$> seq 0 21;
     attendance_collection := [] |}.

(** A code made over and over: 100 valid codes for one session, and
    one, expiring last, for the next. *)
Definition db_regenerated : Database :=
  {| code_collection :=
       ((code_expiring "2024-03-01" <$> seq 0 100)
        ++ [code_expiring "2024-03-02" 100])%list;
     attendance_collection := [] |}.

(** A request whose forwarded header starts with a blank entry. *)
Definition blank_entry_request : Request :=
  {| headers := [("x-forwarded-for", " ,10.0.0.7")];
     client := Some {| host := Some "10.0.0.7"; port := 41234 |} |}.

(** The detail page of the code of the day over [db_review]. *)
Definition review_page : DetailPage :=
  {| code := sample_code; is_active := true;
     attendance_list := reverse (attendance_collection db_review);
     suspicious_list := reverse (drop 1 (attendance_collection db_review)) |}.

(** The database after a code made at 09:20 for the ten minutes before. *)
Definition db_two_late : Database :=
  {| code_collection :=
       [sample_code;
        Code.mk (Code._id second_code) "2024-03-02" "482913" (T0 + minutes 20)
          (T0 + minutes 20 + -10 * US_PER_MINUTE)];
     attendance_collection := [] |}.

(** * Properties *)

(** ** Strings *)

Lemma startswith_spec s p : startswith s p = true <-> starts_with s p.
Proof.
  unfold startswith, starts_with. revert s.
  induction p as [|c p IH]; intros s; simpl.
  - split; [intros _; exists s; reflexivity | destruct s; reflexivity].
  - destruct s as [|c' s]; simpl.
    + split; [discriminate | intros [t Ht]; discriminate].
    + destruct (Ascii.ascii_dec c c') as [->|Hne].
      * rewrite IH. split; intros [t Ht]; exists t.
        -- rewrite Ht; reflexivity.
        -- injection Ht as Ht; exact Ht.
      * split; [discriminate | intros [t Ht]].
        injection Ht as Hc _; congruence.
Qed.

(** ** [classify_ip] *)

Lemma is_dev_decide ip :
  startswith ip "127." || String.eqb ip "::1" = true <-> is_dev ip.
Proof.
  unfold is_dev. rewrite orb_true_iff, startswith_spec, String.eqb_eq.
  reflexivity.
Qed.

Lemma is_campus_decide ip :
  existsb (fun prefix => startswith ip prefix) CAMPUS_PREFIXES = true
  <-> is_campus ip.
Proof.
  unfold is_campus. rewrite existsb_exists. split.
  - intros (p & Hin & Hp). exists p. split.
    + apply list_elem_of_In, Hin.
    + apply startswith_spec, Hp.
  - intros (p & Hin & Hp). exists p. split.
    + apply list_elem_of_In, Hin.
    + apply startswith_spec, Hp.
Qed.

Lemma is_private_decide ip :
  startswith ip "10." || startswith ip "192.168." = true <-> is_private ip.
Proof.
  unfold is_private. rewrite orb_true_iff, !startswith_spec. reflexivity.
Qed.

Lemma classify_ip_rules ip : Classified ip (classify_ip ip).1.
Proof.
  unfold classify_ip.
  destruct (startswith ip "127." || String.eqb ip "::1") eqn:Hdev.
  { apply rule_dev, is_dev_decide, Hdev. }
  assert (~ is_dev ip) as Hnd by (rewrite <- is_dev_decide; congruence).
  destruct (existsb _ CAMPUS_PREFIXES) eqn:Hcampus.
  { apply rule_campus; [exact Hnd | apply is_campus_decide, Hcampus]. }
  assert (~ is_campus ip) as Hnc by (rewrite <- is_campus_decide; congruence).
  destruct (startswith ip "10." || startswith ip "192.168.") eqn:Hpriv.
  { apply rule_private; [exact Hnd | exact Hnc | apply is_private_decide, Hpriv]. }
  apply rule_other; [exact Hnd | exact Hnc |].
  rewrite <- is_private_decide; congruence.
Qed.

Lemma Classified_functional ip s1 s2 :
  Classified ip s1 -> Classified ip s2 -> s1 = s2.
Proof. intros H1 H2; destruct H1; destruct H2; tauto. Qed.

Lemma classify_ip_message ip :
  (classify_ip ip).2 = status_message (classify_ip ip).1.
Proof.
  unfold classify_ip.
  repeat match goal with |- context [if ?b then _ else _] => destruct b end;
    reflexivity.
Qed.

(** The four statuses are stored under four different names, so that a
    query on the name is a test on the status. *)
Lemma status_name_inj s1 s2 : status_name s1 = status_name s2 -> s1 = s2.
Proof. destruct s1, s2; intros Heq; try reflexivity; discriminate Heq. Qed.

(** C4.  [classify_ip] is total: every address string gets a status and
    the message of that status, never an error.  The status is the one
    the four rules give in their order, the first rule that applies
    winning: DEV for a "127." prefix or "::1", else NORMAL for a prefix
    of the campus list, which is ["210.108.18."], else WARNING for a
    "10." or "192.168." prefix, else SUSPICIOUS. *)
Theorem classify_ip_total_ordered :
  CAMPUS_PREFIXES = ["210.108.18."]
  /\ forall ip : string,
       exists status message,
         classify_ip ip = (status, message)
         /\ message = status_message status
         /\ forall s, Classified ip s <-> s = status.
Proof.
  split; [reflexivity |]. intros ip.
  exists (classify_ip ip).1, (classify_ip ip).2.
  split; [destruct (classify_ip ip); reflexivity |].
  split; [apply classify_ip_message |].
  intros s. split.
  - intros Hs. exact (Classified_functional _ _ _ Hs (classify_ip_rules ip)).
  - intros ->. apply classify_ip_rules.
Qed.

(** ** [get_client_ip] *)

(** With a non-empty X-Forwarded-For header the address is its first
    comma-separated entry, stripped, whatever the socket says. *)
Lemma get_client_ip_forwarded request xff :
  headers_get (headers request) "x-forwarded-for" = Some xff ->
  xff <> "" ->
  get_client_ip request = inr (strip (split_first "," xff)).
Proof.
  intros Hget Hne. unfold get_client_ip. rewrite Hget.
  unfold truthy. destruct (String.eqb_spec xff ""); [contradiction | reflexivity].
Qed.

(** Without the header, or with an empty one, and with a peer address,
    it is the peer's host, or "unknown" for a host that is [None] or
    empty. *)
Lemma get_client_ip_peer request a :
  headers_get (headers request) "x-forwarded-for" = None
  \/ headers_get (headers request) "x-forwarded-for" = Some "" ->
  client request = Some a ->
  get_client_ip request = inr (or_str (host a) "unknown").
Proof.
  intros [Hget | Hget] Hc; unfold get_client_ip; rewrite Hget, Hc; reflexivity.
Qed.

(** The header is taken as it comes: a client outside the campus that
    sends a campus address in it is classified NORMAL. *)
Example forwarded_header_decides :
  let request :=
    {| headers := [("x-forwarded-for", "210.108.18.50")];
       client := Some {| host := Some "8.8.8.8"; port := 50500 |} |} in
  get_client_ip request = inr "210.108.18.50"
  /\ (classify_ip "210.108.18.50").1 = NORMAL
  /\ (classify_ip "8.8.8.8").1 = SUSPICIOUS.
Proof. repeat split. Qed.

(** C9.  A request with no X-Forwarded-For header whose [client] is
    [None], as for a server without a peer address: the fallback
    ["unknown"] is not reached, [request.client.host] raises. *)
Theorem get_client_ip_no_peer :
  get_client_ip {| headers := []; client := None |} = inl AttributeError.
Proof. reflexivity. Qed.

(** ** [find_one] *)

Section FindOne.
Context {A : Type} (P : A -> Prop) `{forall x, Decision (P x)}.

Lemma find_one_None (l : list A) :
  find_one P l = None <-> forall x, x ∈ l -> ~ P x.
Proof.
  unfold find_one. rewrite fmap_None, list_find_None, Forall_forall.
  reflexivity.
Qed.

Lemma find_one_is_Some (l : list A) x :
  x ∈ l -> P x -> exists y, find_one P l = Some y.
Proof.
  intros Hin HP. destruct (list_find_elem_of P l x Hin HP) as [[i y] Hf].
  exists y. unfold find_one. rewrite Hf. reflexivity.
Qed.

End FindOne.

(** ** [student_attend] *)

Lemma result_text_inj o1 o2 : result_text o1 = result_text o2 -> o1 = o2.
Proof. destruct o1, o2; intros Heq; try reflexivity; discriminate Heq. Qed.

Section StudentAttend.
Context `{Driver}.
Variables (request : Request) (student_name session_date attendance_code : string).
Variables (now now_sessions : Z) (db : Database).

Lemma find_code_active :
  has_active_code db session_date attendance_code now ->
  exists c,
    find_one (fun c => Code.session_date c = session_date
                       /\ Code.attendance_code c = attendance_code
                       /\ now < Code.valid_until c) (code_collection db)
    = Some c.
Proof.
  intros (c & Hin & Hc). eapply find_one_is_Some; [exact Hin | exact Hc].
Qed.

Lemma find_code_none :
  ~ has_active_code db session_date attendance_code now ->
  find_one (fun c => Code.session_date c = session_date
                     /\ Code.attendance_code c = attendance_code
                     /\ now < Code.valid_until c) (code_collection db)
  = None.
Proof.
  intros Hno. apply find_one_None. intros c Hin Hc. apply Hno.
  exists c. split; [exact Hin | exact Hc].
Qed.

Lemma find_record_some :
  has_record db student_name session_date attendance_code ->
  exists a,
    find_one (fun a => Attend.session_date a = session_date
                       /\ Attend.attendance_code a = attendance_code
                       /\ Attend.student_name a = student_name)
      (attendance_collection db)
    = Some a.
Proof.
  intros (a & Hin & Hn & Hs & Hc).
  eapply find_one_is_Some; [exact Hin | auto].
Qed.

Lemma find_record_none :
  ~ has_record db student_name session_date attendance_code ->
  find_one (fun a => Attend.session_date a = session_date
                     /\ Attend.attendance_code a = attendance_code
                     /\ Attend.student_name a = student_name)
    (attendance_collection db)
  = None.
Proof.
  intros Hno. apply find_one_None. intros a Hin (Hs & Hc & Hn). apply Hno.
  exists a. auto.
Qed.

(** C1, with the precision of the store.  A submission whose
    (session_date, code) pair matches a code that has not expired, from
    a student with no record for the triple: the page shows the
    Recorded text and the message of the address's classification, and
    the database afterwards is the one before with exactly one more
    attendance record, which carries the name, the session date, the
    code, the client address, the status and message [classify_ip]
    gives that address, and the time of the submission cut to the
    millisecond.  The code collection is as before. *)
Theorem student_attend_recorded client_ip :
  get_client_ip request = inr client_ip ->
  has_active_code db session_date attendance_code now ->
  ~ has_record db student_name session_date attendance_code ->
  let attend_doc :=
    Attend.mk student_name session_date attendance_code client_ip
      (classify_ip client_ip).1 (classify_ip client_ip).2 (floor_ms now) in
  student_attend request student_name session_date attendance_code
    now now_sessions db
  = (inr {| result := Some (result_text Recorded);
            ip_status_message := Some (classify_ip client_ip).2;
            sessions :=
              get_active_sessions now_sessions (with_attendance db attend_doc) |},
     with_attendance db attend_doc).
Proof.
  intros Hip Hcode Hnew. simpl. unfold student_attend. rewrite Hip.
  destruct (classify_ip client_ip) as [st msg].
  destruct (find_code_active Hcode) as [c ->].
  rewrite (find_record_none Hnew). reflexivity.
Qed.

(** C2.  A submission whose (session_date, code) pair matches no code
    that is still valid at [now], be it unknown or expired: the page
    shows the CodeInvalidOrExpired text and the database is unchanged.
    Nothing is asked of the attendance records: the student may well
    have one for the triple already. *)
Theorem student_attend_invalid client_ip :
  get_client_ip request = inr client_ip ->
  ~ has_active_code db session_date attendance_code now ->
  student_attend request student_name session_date attendance_code
    now now_sessions db
  = (inr {| result := Some (result_text CodeInvalidOrExpired);
            ip_status_message := Some (classify_ip client_ip).2;
            sessions := get_active_sessions now_sessions db |},
     db).
Proof.
  intros Hip Hcode. unfold student_attend. rewrite Hip.
  destruct (classify_ip client_ip) as [st msg].
  rewrite (find_code_none Hcode). reflexivity.
Qed.

(** C3.  A submission whose pair matches a valid code, from a student
    who already has a record for the triple: the page shows the
    AlreadyRecorded text and the database is unchanged. *)
Theorem student_attend_already client_ip :
  get_client_ip request = inr client_ip ->
  has_active_code db session_date attendance_code now ->
  has_record db student_name session_date attendance_code ->
  student_attend request student_name session_date attendance_code
    now now_sessions db
  = (inr {| result := Some (result_text AlreadyRecorded);
            ip_status_message := Some (classify_ip client_ip).2;
            sessions := get_active_sessions now_sessions db |},
     db).
Proof.
  intros Hip Hcode Hold. unfold student_attend. rewrite Hip.
  destruct (classify_ip client_ip) as [st msg].
  destruct (find_code_active Hcode) as [c ->].
  destruct (find_record_some Hold) as [a ->]. reflexivity.
Qed.

End StudentAttend.

(** C10, for a code the student has not submitted yet.  The duplicate
    check looks for the exact (student_name, session_date, code) triple
    and nothing else.  A student who holds a record for [session_date]
    under a code [c1] and none under another valid code [c2] of the
    same session, and submits [c2], gets the Recorded text and one more
    record: afterwards the student holds two distinct records for the
    one session, the old one under [c1] and the new one under [c2]. *)
Theorem student_attend_second_code `{Driver} (request : Request)
  (student_name session_date c1 c2 : string) (now now_sessions : Z)
  (db : Database) (client_ip : string) :
  get_client_ip request = inr client_ip ->
  c1 <> c2 ->
  has_record db student_name session_date c1 ->
  has_active_code db session_date c2 now ->
  ~ has_record db student_name session_date c2 ->
  let attend_doc :=
    Attend.mk student_name session_date c2 client_ip
      (classify_ip client_ip).1 (classify_ip client_ip).2 (floor_ms now) in
  let db' := with_attendance db attend_doc in
  student_attend request student_name session_date c2 now now_sessions db
  = (inr {| result := Some (result_text Recorded);
            ip_status_message := Some (classify_ip client_ip).2;
            sessions := get_active_sessions now_sessions db' |}, db')
  /\ has_record db' student_name session_date c2
  /\ exists old,
       old ∈ attendance_collection db'
       /\ attend_doc ∈ attendance_collection db'
       /\ old <> attend_doc
       /\ Attend.student_name old = student_name
       /\ Attend.session_date old = session_date
       /\ Attend.attendance_code old = c1.
Proof.
  intros Hip Hne Hold Hcode Hnew attend_doc db'.
  split.
  { unfold student_attend. rewrite Hip.
    subst db' attend_doc. destruct (classify_ip client_ip) as [st msg].
    destruct (find_code_active _ _ _ _ Hcode) as [c ->].
    rewrite (find_record_none _ _ _ _ Hnew). reflexivity. }
  split.
  - exists attend_doc. simpl. rewrite elem_of_app, list_elem_of_singleton. auto.
  - destruct Hold as (old & Hin & Hn & Hs & Hc). exists old. simpl.
    rewrite !elem_of_app, !list_elem_of_singleton.
    split; [left; exact Hin |]. split; [right; reflexivity |].
    split; [| auto].
    intros Heq. apply Hne. rewrite <- Hc, Heq. reflexivity.
Qed.

(** ** Sorted and capped cursors *)

Section Cursors.
Context `{Driver} {A : Type} (key : A -> Z) (d : Direction).

Lemma take_cursor_sort n (l : list A) :
  first_sorted key d n l (take n (cursor_sort key d l)).
Proof.
  split.
  - rewrite length_take, (Permutation_length (cursor_sort_perm A key d l)).
    reflexivity.
  - exists (drop n (cursor_sort key d l)). rewrite take_drop.
    split; [apply cursor_sort_perm | apply cursor_sort_sorted].
Qed.

Lemma first_sorted_sorted n (all res : list A) :
  first_sorted key d n all res -> StronglySorted (doc_le key d) res.
Proof.
  intros (_ & rest & _ & Hs). eapply StronglySorted_app_1_l, Hs.
Qed.

Lemma first_sorted_elem_of n (all res : list A) x :
  first_sorted key d n all res -> x ∈ res -> x ∈ all.
Proof.
  intros (_ & rest & Hp & _) Hin. rewrite <- Hp, elem_of_app. left; exact Hin.
Qed.

Lemma first_sorted_all n (all res : list A) :
  first_sorted key d n all res -> (length all <= n)%nat -> res ≡ₚ all.
Proof.
  intros (Hlen & rest & Hp & _) Hle.
  assert (length rest = 0%nat) as Hrest.
  { apply Permutation_length in Hp. rewrite length_app in Hp. lia. }
  destruct rest; [| discriminate]. rewrite app_nil_r in Hp. exact Hp.
Qed.

End Cursors.

(** ** [teacher_page] *)

(** C6, with the caps of the two queries.  The active list holds the
    stored codes with [valid_until > now] in ascending order of
    [valid_until], the first 20 of them; the past list those with
    [valid_until <= now] in descending order, the first 30.  Each list
    is the whole of its kind when the kind has no more codes than the
    cap.  An expired code is never in the active list and a code still
    to expire never in the past list. *)
Theorem teacher_page_lists `{Driver} (now : Z) (db : Database) :
  let page := teacher_page now db in
  let active := filter (fun c => now < Code.valid_until c) (code_collection db) in
  let past := filter (fun c => Code.valid_until c <= now) (code_collection db) in
  first_sorted Code.valid_until Asc 20 active (active_codes page)
  /\ first_sorted Code.valid_until Desc 30 past (past_codes page)
  /\ StronglySorted (doc_le Code.valid_until Asc) (active_codes page)
  /\ StronglySorted (doc_le Code.valid_until Desc) (past_codes page)
  /\ ((length active <= 20)%nat -> active_codes page ≡ₚ active)
  /\ ((length past <= 30)%nat -> past_codes page ≡ₚ past)
  /\ (forall c, c ∈ active_codes page ->
                c ∈ code_collection db /\ now < Code.valid_until c)
  /\ (forall c, c ∈ past_codes page ->
                c ∈ code_collection db /\ Code.valid_until c <= now)
  /\ (forall c, Code.valid_until c <= now -> c ∉ active_codes page)
  /\ (forall c, now < Code.valid_until c -> c ∉ past_codes page).
Proof.
  intros page active past.
  assert (first_sorted Code.valid_until Asc 20 active (active_codes page))
    as Ha by apply take_cursor_sort.
  assert (first_sorted Code.valid_until Desc 30 past (past_codes page))
    as Hp by apply take_cursor_sort.
  assert (forall c, c ∈ active_codes page ->
                    c ∈ code_collection db /\ now < Code.valid_until c) as Hina.
  { intros c Hc. apply (first_sorted_elem_of _ _ _ _ _ _ Ha) in Hc.
    apply list_elem_of_filter in Hc. tauto. }
  assert (forall c, c ∈ past_codes page ->
                    c ∈ code_collection db /\ Code.valid_until c <= now) as Hinp.
  { intros c Hc. apply (first_sorted_elem_of _ _ _ _ _ _ Hp) in Hc.
    apply list_elem_of_filter in Hc. tauto. }
  split; [exact Ha |]. split; [exact Hp |].
  split; [eapply first_sorted_sorted, Ha |].
  split; [eapply first_sorted_sorted, Hp |].
  split; [exact (first_sorted_all _ _ _ _ _ Ha) |].
  split; [exact (first_sorted_all _ _ _ _ _ Hp) |].
  split; [exact Hina |]. split; [exact Hinp |].
  split.
  - intros c Hexp Hc. apply Hina in Hc. lia.
  - intros c Hact Hc. apply Hinp in Hc. lia.
Qed.

(** ** [teacher_code_detail] *)

Lemma flagged_of_filter code_doc db :
  flagged_of code_doc db
  = filter (fun a => Attend.session_date a = Code.session_date code_doc
                     /\ Attend.attendance_code a = Code.attendance_code code_doc
                     /\ Attend.ip_status a <> NORMAL)
      (attendance_collection db).
Proof.
  unfold flagged_of, records_of. rewrite list_filter_filter.
  apply list_filter_iff. intros a. tauto.
Qed.

(** C5, with the cap of the two queries.  For a stored code that
    [code_id] resolves to, with N records and M of them not NORMAL, the
    detail page lists min(N, 500) records and min(M, 500) flagged ones,
    each list the first 500 of its kind in descending order of
    timestamp, and the whole of its kind up to 500.  Only NORMAL is kept
    out of the flagged list: a DEV record of the code is in it whenever
    the flagged records are no more than 500. *)
Theorem teacher_code_detail_lists `{Driver} (code_id : string) (now : Z)
  (db : Database) (code_doc : Code.doc) :
  ObjectId code_id = Some (Code._id code_doc) ->
  find_one (fun c => Code._id c = Code._id code_doc) (code_collection db)
  = Some code_doc ->
  exists page,
    teacher_code_detail code_id now db = inr page
    /\ code page = code_doc
    /\ is_active page = bool_decide (now < Code.valid_until code_doc)
    /\ length (attendance_list page)
       = Nat.min 500 (length (records_of code_doc db))
    /\ length (suspicious_list page)
       = Nat.min 500 (length (flagged_of code_doc db))
    /\ first_sorted Attend.timestamp Desc 500 (records_of code_doc db)
         (attendance_list page)
    /\ first_sorted Attend.timestamp Desc 500 (flagged_of code_doc db)
         (suspicious_list page)
    /\ StronglySorted (doc_le Attend.timestamp Desc) (attendance_list page)
    /\ StronglySorted (doc_le Attend.timestamp Desc) (suspicious_list page)
    /\ ((length (records_of code_doc db) <= 500)%nat ->
        attendance_list page ≡ₚ records_of code_doc db)
    /\ ((length (flagged_of code_doc db) <= 500)%nat ->
        suspicious_list page ≡ₚ flagged_of code_doc db
        /\ forall a, a ∈ records_of code_doc db ->
                     Attend.ip_status a = DEV -> a ∈ suspicious_list page).
Proof.
  intros Hid Hfind. unfold teacher_code_detail. rewrite Hid, Hfind.
  eexists. split; [reflexivity |]. simpl.
  rewrite <- flagged_of_filter. fold (records_of code_doc db).
  pose proof (take_cursor_sort Attend.timestamp Desc 500
                (records_of code_doc db)) as Ha.
  pose proof (take_cursor_sort Attend.timestamp Desc 500
                (flagged_of code_doc db)) as Hs.
  split; [reflexivity |]. split; [reflexivity |].
  split; [apply Ha |]. split; [apply Hs |].
  split; [exact Ha |]. split; [exact Hs |].
  split; [eapply first_sorted_sorted, Ha |].
  split; [eapply first_sorted_sorted, Hs |].
  split; [exact (first_sorted_all _ _ _ _ _ Ha) |].
  intros Hle. pose proof (first_sorted_all _ _ _ _ _ Hs Hle) as Hperm.
  split; [exact Hperm |].
  intros a Hin Hdev. rewrite Hperm. unfold flagged_of.
  apply list_elem_of_filter. split; [rewrite Hdev; discriminate | exact Hin].
Qed.

(** ** [get_active_sessions] *)

Lemma sessions_loop_first_per_date codes sessions seen :
  sessions_loop codes sessions seen
  = (sessions ++ (entry_of <$> first_per_date seen codes))%list.
Proof.
  revert sessions seen.
  induction codes as [|c rest IH]; intros sessions seen; simpl.
  - rewrite app_nil_r. reflexivity.
  - destruct (decide (Code.session_date c ∈ seen)); rewrite IH.
    + reflexivity.
    + rewrite <- app_assoc. reflexivity.
Qed.

Lemma first_per_date_sublist seen codes :
  first_per_date seen codes `sublist_of` codes.
Proof.
  revert seen. induction codes as [|c rest IH]; intros seen; simpl.
  - constructor.
  - destruct (decide (Code.session_date c ∈ seen)).
    + apply sublist_cons, IH.
    + apply sublist_skip, IH.
Qed.

Lemma first_per_date_unseen seen codes k :
  k ∈ first_per_date seen codes -> Code.session_date k ∉ seen.
Proof.
  revert seen. induction codes as [|c rest IH]; intros seen; simpl.
  - intros Hk. inversion Hk.
  - destruct (decide (Code.session_date c ∈ seen)) as [Hin | Hout].
    + apply IH.
    + rewrite elem_of_cons. intros [-> | Hk]; [exact Hout |].
      apply IH in Hk. set_solver.
Qed.

Lemma first_per_date_NoDup seen codes :
  NoDup (Code.session_date <$> first_per_date seen codes).
Proof.
  revert seen. induction codes as [|c rest IH]; intros seen; simpl.
  - constructor.
  - destruct (decide (Code.session_date c ∈ seen)); [apply IH |].
    rewrite fmap_cons. apply NoDup_cons. split; [| apply IH].
    intros Hdup. apply list_elem_of_fmap in Hdup as (k & Hsd & Hk).
    apply first_per_date_unseen in Hk. set_solver.
Qed.

Lemma first_per_date_covers seen codes c :
  c ∈ codes -> Code.session_date c ∉ seen ->
  exists k, k ∈ first_per_date seen codes
            /\ Code.session_date k = Code.session_date c.
Proof.
  revert seen. induction codes as [|c0 rest IH]; intros seen Hc Hout; simpl.
  - inversion Hc.
  - apply elem_of_cons in Hc.
    destruct (decide (Code.session_date c0 ∈ seen)) as [Hin0 | Hout0].
    + destruct Hc as [-> | Hc]; [contradiction |]. apply IH; assumption.
    + destruct (decide (Code.session_date c = Code.session_date c0))
        as [Heq | Hne].
      * exists c0. split; [apply list_elem_of_here | congruence].
      * destruct Hc as [-> | Hc]; [congruence |].
        destruct (IH ({[Code.session_date c0]} ∪ seen) Hc) as (k & Hk & Hsd).
        { rewrite elem_of_union, elem_of_singleton. tauto. }
        exists k. split; [apply list_elem_of_further, Hk | exact Hsd].
Qed.

Lemma first_per_date_first seen codes k :
  k ∈ first_per_date seen codes ->
  exists i, codes !! i = Some k
            /\ forall j c, codes !! j = Some c ->
                           Code.session_date c = Code.session_date k ->
                           (i <= j)%nat.
Proof.
  revert seen. induction codes as [|c0 rest IH]; intros seen; simpl.
  - intros Hk. inversion Hk.
  - destruct (decide (Code.session_date c0 ∈ seen)) as [Hin0 | Hout0].
    + intros Hk. pose proof (first_per_date_unseen _ _ _ Hk) as Hout.
      destruct (IH _ Hk) as (i & Hi & Hfirst). exists (S i).
      split; [exact Hi |]. intros [|j] c Hj Hsd; simpl in Hj.
      * injection Hj as ->. congruence.
      * specialize (Hfirst j c Hj Hsd). lia.
    + rewrite elem_of_cons. intros [-> | Hk].
      * exists 0%nat. split; [reflexivity | intros; lia].
      * pose proof (first_per_date_unseen _ _ _ Hk) as Hout.
        destruct (IH _ Hk) as (i & Hi & Hfirst). exists (S i).
        split; [exact Hi |]. intros [|j] c Hj Hsd; simpl in Hj.
        -- injection Hj as ->. set_solver.
        -- specialize (Hfirst j c Hj Hsd). lia.
Qed.

Lemma StronglySorted_lookup_le {A} (R : relation A) `{!Reflexive R}
  (l : list A) i j x y :
  StronglySorted R l -> l !! i = Some x -> l !! j = Some y ->
  (i <= j)%nat -> R x y.
Proof.
  intros Hs. revert i j. induction Hs as [|a l Hs IH Hall]; intros i j Hi Hj Hle.
  - rewrite lookup_nil in Hi. discriminate.
  - destruct i as [|i], j as [|j]; simpl in Hi, Hj.
    + injection Hi as ->. injection Hj as ->. reflexivity.
    + injection Hi as ->. rewrite Forall_forall in Hall. apply Hall.
      eapply list_elem_of_lookup_2, Hj.
    + lia.
    + apply (IH i j Hi Hj). lia.
Qed.

(** C8, with the cap of the query.  The picker is made from [codes],
    the first 100 valid codes in ascending order of [valid_until] (all
    of them when they are no more than 100).  It has one entry for each
    session date among [codes] and no two for one date; the entry of a
    date is made of the first code of [codes] with that date, which no
    other code of [codes] with that date expires before; and the
    entries stand in the order of [codes]. *)
Theorem get_active_sessions_first_per_date `{Driver} (now : Z) (db : Database) :
  let active := filter (fun c => now < Code.valid_until c) (code_collection db) in
  let sessions := get_active_sessions now db in
  exists codes kept,
    first_sorted Code.valid_until Asc 100 active codes
    /\ ((length active <= 100)%nat -> codes ≡ₚ active)
    /\ sessions = entry_of <$> kept
    /\ kept `sublist_of` codes
    /\ NoDup (Session.session_date <$> sessions)
    /\ (forall sd, sd ∈ Session.session_date <$> sessions
                   <-> sd ∈ Code.session_date <$> codes)
    /\ (forall k, k ∈ kept ->
          exists i, codes !! i = Some k
            /\ forall j c, codes !! j = Some c ->
                 Code.session_date c = Code.session_date k ->
                 (i <= j)%nat /\ Code.valid_until k <= Code.valid_until c).
Proof.
  intros active sessions.
  set (codes := take 100 (cursor_sort Code.valid_until Asc active)).
  assert (first_sorted Code.valid_until Asc 100 active codes) as Hcodes
    by apply take_cursor_sort.
  assert (sessions = entry_of <$> first_per_date ∅ codes) as Hsessions.
  { subst sessions. unfold get_active_sessions.
    rewrite sessions_loop_first_per_date. reflexivity. }
  assert (Session.session_date <$> sessions
          = Code.session_date <$> first_per_date ∅ codes) as Hdates.
  { rewrite Hsessions, <- list_fmap_compose. reflexivity. }
  exists codes, (first_per_date ∅ codes).
  split; [exact Hcodes |].
  split; [exact (first_sorted_all _ _ _ _ _ Hcodes) |].
  split; [exact Hsessions |].
  split; [apply first_per_date_sublist |].
  split; [rewrite Hdates; apply first_per_date_NoDup |].
  split.
  - intros sd. rewrite Hdates, !list_elem_of_fmap. split.
    + intros (k & -> & Hk). exists k. split; [reflexivity |].
      eapply elem_of_sublist; [exact Hk | apply first_per_date_sublist].
    + intros (c & -> & Hc).
      destruct (first_per_date_covers ∅ codes c Hc) as (k & Hk & Hsd).
      { set_solver. }
      exists k. split; [congruence | exact Hk].
  - intros k Hk. destruct (first_per_date_first _ _ _ Hk) as (i & Hi & Hfirst).
    exists i. split; [exact Hi |]. intros j c Hj Hsd.
    pose proof (Hfirst j c Hj Hsd) as Hle. split; [exact Hle |].
    apply (StronglySorted_lookup_le (doc_le Code.valid_until Asc) codes i j k c);
      [eapply first_sorted_sorted, Hcodes | exact Hi | exact Hj | exact Hle].
Qed.

(** ** [generate_code] and [create_code] *)

Lemma draw_index (u : Q) (n : Z) :
  (0 <= u)%Q -> (u < 1)%Q -> 0 < n -> 0 <= Qfloor (u * inject_Z n) < n.
Proof.
  intros H0 H1 Hn.
  assert (0 < inject_Z n)%Q as Hnq.
  { change (inject_Z 0 < inject_Z n)%Q. rewrite <- Zlt_Qlt. exact Hn. }
  split.
  - change 0 with (Qfloor 0). apply Qfloor_resp_le.
    apply Qmult_le_0_compat; [exact H0 | apply Qlt_le_weak, Hnq].
  - rewrite Zlt_Qlt.
    eapply Qle_lt_trans; [apply Qfloor_le |].
    apply Qlt_le_trans with (1 * inject_Z n)%Q.
    + apply Qmult_lt_compat_r; assumption.
    + rewrite Qmult_1_l. apply Qle_refl.
Qed.

Lemma getitem_digits (i : Z) :
  0 <= i < 10 ->
  getitem (list_ascii_of_string digits) i = inr (digit_char i).
Proof.
  intros Hi.
  assert (i = 0 \/ i = 1 \/ i = 2 \/ i = 3 \/ i = 4 \/ i = 5 \/ i = 6
          \/ i = 7 \/ i = 8 \/ i = 9) as Hcases by lia.
  repeat (destruct Hcases as [-> | Hcases]; [reflexivity |]).
  rewrite Hcases. reflexivity.
Qed.

Lemma digit_char_is_digit (i : Z) : 0 <= i < 10 -> is_digit (digit_char i).
Proof.
  intros Hi. unfold is_digit, digit_char.
  rewrite nat_ascii_embedding; lia.
Qed.

Lemma choices_from_map {A} (random : nat -> Q) (population : list A)
  (pick : nat -> A) (k i : nat) :
  (forall j, (i <= j < i + k)%nat ->
     getitem population
       (Qfloor (random j * inject_Z (Z.of_nat (length population))))
     = inr (pick j)) ->
  choices_from random population i k = inr (pick <$> seq i k).
Proof.
  revert i. induction k as [|k IH]; intros i Hpick.
  - reflexivity.
  - cbn [choices_from seq fmap list_fmap]. rewrite Hpick by lia.
    cbn [ebind]. rewrite IH.
    + reflexivity.
    + intros j Hj. apply Hpick. lia.
Qed.

Lemma generate_code_draws (random : nat -> Q) (n : nat) :
  unit_draws random ->
  generate_code random n
  = inr (string_of_list_ascii (drawn_digit random <$> seq 0 n)).
Proof.
  intros Hu. unfold generate_code, choices.
  rewrite (choices_from_map random _ (drawn_digit random)).
  - reflexivity.
  - intros j _. destruct (Hu j) as [H0 H1].
    apply getitem_digits. apply (draw_index (random j) 10 H0 H1). lia.
Qed.

Lemma length_string_of_list_ascii (cs : list ascii) :
  String.length (string_of_list_ascii cs) = length cs.
Proof. induction cs as [|c cs IH]; simpl; congruence. Qed.

Lemma timedelta_minutes_in_range (now m : Z) :
  0 <= now <= DATETIME_MAX ->
  0 <= now + m * US_PER_MINUTE <= DATETIME_MAX ->
  timedelta_minutes m = inr (m * US_PER_MINUTE).
Proof.
  unfold timedelta_minutes, DATETIME_MAX, US_PER_DAY, US_PER_MINUTE.
  intros Hnow Hsum.
  assert (-999999999 <= m * 60000000 / 86400000000 <= 999999999) as Hdays.
  { split.
    - apply Z.div_le_lower_bound; lia.
    - apply Z.lt_succ_r, Z.div_lt_upper_bound; lia. }
  destruct (Z.leb_spec (-999999999) (m * 60000000 / 86400000000)); [| lia].
  destruct (Z.leb_spec (m * 60000000 / 86400000000) 999999999); [| lia].
  reflexivity.
Qed.

(** The expiry is outside the years 1 to 9999: the call raises and the
    database stays as it was. *)
Lemma create_code_overflow (random : nat -> Q) (new_id : oid)
  (session_date : string) (minutes_valid now : Z) (db : Database) :
  unit_draws random ->
  ~ (0 <= now + minutes_valid * US_PER_MINUTE <= DATETIME_MAX) ->
  create_code random new_id session_date minutes_valid now db
  = (inl OverflowError, db).
Proof.
  intros Hu Hout. unfold create_code.
  rewrite (generate_code_draws random 6 Hu). simpl.
  unfold timedelta_minutes.
  destruct (_ && _); simpl; [| reflexivity].
  unfold datetime_add.
  destruct (Z.leb_spec 0 (now + minutes_valid * US_PER_MINUTE));
    [| reflexivity].
  destruct (Z.leb_spec (now + minutes_valid * US_PER_MINUTE) DATETIME_MAX);
    [lia | reflexivity].
Qed.

Lemma floor_ms_le t : floor_ms t <= t.
Proof.
  unfold floor_ms. pose proof (Z.mul_div_le t 1000). lia.
Qed.

Lemma floor_ms_add_minutes t m :
  floor_ms (t + m * US_PER_MINUTE) = floor_ms t + m * US_PER_MINUTE.
Proof.
  unfold floor_ms, US_PER_MINUTE.
  replace (t + m * 60000000) with (t + m * 60000 * 1000) by lia.
  rewrite Z.div_add by lia. lia.
Qed.

(** C7, for an expiry that a [datetime] can hold and with the
    precision of the store.  When [now] plus [minutes_valid] minutes
    lies within the years 1 to 9999, the call redirects to the
    teacher's page and appends exactly one code document: its code is
    six characters, each a digit "0" to "9" (a "0" may lead);
    [created_at] is [now] cut to the millisecond and [valid_until] is
    [minutes_valid] minutes after that, which is [now] plus
    [minutes_valid] minutes cut to the millisecond.  The attendance
    records are untouched. *)
Theorem create_code_persists (random : nat -> Q) (new_id : oid)
  (session_date : string) (minutes_valid now : Z) (db : Database) :
  unit_draws random ->
  0 <= now <= DATETIME_MAX ->
  0 <= now + minutes_valid * US_PER_MINUTE <= DATETIME_MAX ->
  exists code,
    String.length code = 6%nat
    /\ Forall is_digit (list_ascii_of_string code)
    /\ floor_ms now + minutes_valid * US_PER_MINUTE
       = floor_ms (now + minutes_valid * US_PER_MINUTE)
    /\ create_code random new_id session_date minutes_valid now db
       = (inr {| url := "/teacher"; status_code := 303 |},
          {| code_collection :=
               code_collection db
               ++ [Code.mk new_id session_date code (floor_ms now)
                     (floor_ms now + minutes_valid * US_PER_MINUTE)];
             attendance_collection := attendance_collection db |}).
Proof.
  intros Hu Hnow Hsum.
  exists (string_of_list_ascii (drawn_digit random <$> seq 0 6)).
  split; [rewrite length_string_of_list_ascii, length_fmap, length_seq;
          reflexivity |].
  split.
  { rewrite list_ascii_of_string_of_list_ascii. apply Forall_fmap, Forall_forall.
    intros i _. destruct (Hu i) as [H0 H1]. apply digit_char_is_digit.
    apply (draw_index (random i) 10 H0 H1). lia. }
  split; [symmetry; apply floor_ms_add_minutes |].
  unfold create_code. rewrite (generate_code_draws random 6 Hu).
  cbn [ebind]. rewrite (timedelta_minutes_in_range now minutes_valid Hnow Hsum).
  cbn [ebind]. unfold datetime_add.
  destruct (Z.leb_spec 0 (now + minutes_valid * US_PER_MINUTE)); [| lia].
  destruct (Z.leb_spec (now + minutes_valid * US_PER_MINUTE) DATETIME_MAX);
    [| lia].
  unfold insert_one, stored, Code_stored. simpl.
  rewrite floor_ms_add_minutes. reflexivity.
Qed.

(** * The handlers at work *)

Lemma sample_draws_unit : unit_draws sample_draws.
Proof.
  intros i. unfold sample_draws.
  do 6 (destruct i as [|i]; [split; [discriminate | reflexivity] |]).
  destruct i; split; (discriminate || reflexivity).
Defined.

Lemma T0_datetime : 0 <= T0 <= DATETIME_MAX.
Proof. split; discriminate. Defined.

(** The teacher creates the code of the day: "482913", valid to 09:10. *)
Lemma create_code_persists_witness :
  exists code,
    String.length code = 6%nat
    /\ Forall is_digit (list_ascii_of_string code)
    /\ floor_ms T0 + 10 * US_PER_MINUTE = floor_ms (T0 + 10 * US_PER_MINUTE)
    /\ create_code sample_draws sample_oid "2024-03-01" 10 T0 empty_db
       = (inr {| url := "/teacher"; status_code := 303 |},
          {| code_collection :=
               code_collection empty_db
               ++ [Code.mk sample_oid "2024-03-01" code (floor_ms T0)
                     (floor_ms T0 + 10 * US_PER_MINUTE)];
             attendance_collection := attendance_collection empty_db |}).
Proof.
  apply (create_code_persists sample_draws sample_oid "2024-03-01" 10 T0
           empty_db sample_draws_unit T0_datetime).
  split; discriminate.
Defined.

Example create_code_sample :
  create_code sample_draws sample_oid "2024-03-01" 10 T0 empty_db
  = (inr {| url := "/teacher"; status_code := 303 |}, db_created).
Proof. vm_compute. reflexivity. Qed.

(** C7 as stated fails: ten thousand million minutes from 2024 is past
    the year 9999, the sum raises and no code is stored. *)
Lemma create_code_expiry_overflow :
  create_code sample_draws sample_oid "2024-03-01" 10000000000 T0 empty_db
  = (inl OverflowError, empty_db).
Proof. vm_compute. reflexivity. Qed.

(** C7 as stated fails twice over: on the overflow above, and because
    a call one microsecond after 09:00 stores 09:00 as [created_at] and
    09:10 as [valid_until], not its own [now] and ten minutes after. *)
Lemma create_code_overflow_and_cut :
  create_code sample_draws sample_oid "2024-03-01" 10000000000 T0 empty_db
  = (inl OverflowError, empty_db)
  /\ create_code sample_draws sample_oid "2024-03-01" 10 (T0 + 1) empty_db
     = (inr {| url := "/teacher"; status_code := 303 |}, db_created)
  /\ Code.created_at sample_code < T0 + 1
  /\ Code.valid_until sample_code < T0 + 1 + 10 * US_PER_MINUTE.
Proof.
  split; [vm_compute; reflexivity |]. split; [vm_compute; reflexivity |].
  split; reflexivity.
Qed.

Lemma sample_code_active_at (t : Z) (db : Database) :
  sample_code ∈ code_collection db -> t < T0 + minutes 10 ->
  has_active_code db "2024-03-01" "482913" t.
Proof.
  intros Hin Ht. exists sample_code.
  split; [exact Hin |]. split; [reflexivity |]. split; [reflexivity | exact Ht].
Defined.

(** Alice submits at 09:01 from the campus network: recorded. *)
Lemma student_attend_recorded_witness :
  student_attend (H := merge_sort_driver) alice_request
    "Alice" "2024-03-01" "482913" (T0 + minutes 1) (T0 + minutes 1) db_created
  = (inr {| result := Some (result_text Recorded);
            ip_status_message := Some (classify_ip "210.108.18.50").2;
            sessions := [Session.mk "2024-03-01" "03/01 09:10"] |},
     db_alice).
Proof.
  apply (student_attend_recorded (H := merge_sort_driver) alice_request
           "Alice" "2024-03-01" "482913" (T0 + minutes 1) (T0 + minutes 1)
           db_created "210.108.18.50").
  - reflexivity.
  - apply sample_code_active_at; [apply list_elem_of_here | reflexivity].
  - intros (a & Hin & _). inversion Hin.
Defined.

(** C1 as stated fails: a submission one microsecond after 09:01 is
    recorded with the timestamp 09:01, not with its own time. *)
Lemma student_attend_timestamp_cut :
  student_attend (H := merge_sort_driver) alice_request
    "Alice" "2024-03-01" "482913" (T0 + minutes 1 + 1) (T0 + minutes 1 + 1)
    db_created
  = (inr {| result := Some (result_text Recorded);
            ip_status_message := Some (classify_ip "210.108.18.50").2;
            sessions := [Session.mk "2024-03-01" "03/01 09:10"] |},
     db_alice)
  /\ attendance_collection db_alice = [alice_doc]
  /\ Attend.timestamp alice_doc < T0 + minutes 1 + 1.
Proof.
  split; [vm_compute; reflexivity |]. split; reflexivity.
Qed.

(** Alice submits again at 09:02: already recorded, nothing written. *)
Lemma student_attend_already_witness :
  student_attend (H := merge_sort_driver) alice_request
    "Alice" "2024-03-01" "482913" (T0 + minutes 2) (T0 + minutes 2) db_alice
  = (inr {| result := Some (result_text AlreadyRecorded);
            ip_status_message := Some (classify_ip "210.108.18.50").2;
            sessions := [Session.mk "2024-03-01" "03/01 09:10"] |},
     db_alice).
Proof.
  apply (student_attend_already (H := merge_sort_driver) alice_request
           "Alice" "2024-03-01" "482913" (T0 + minutes 2) (T0 + minutes 2)
           db_alice "210.108.18.50").
  - reflexivity.
  - apply sample_code_active_at; [apply list_elem_of_here | reflexivity].
  - exists alice_doc. split; [apply list_elem_of_here |].
    split; [reflexivity |]. split; reflexivity.
Defined.

(** Alice, already recorded, submits again at 09:15, after the code
    expired: the answer is that the code is not valid, nothing is
    written, and no session is left to pick. *)
Lemma student_attend_invalid_witness :
  student_attend (H := merge_sort_driver) alice_request
    "Alice" "2024-03-01" "482913" (T0 + minutes 15) (T0 + minutes 15) db_alice
  = (inr {| result := Some (result_text CodeInvalidOrExpired);
            ip_status_message := Some (classify_ip "210.108.18.50").2;
            sessions := [] |},
     db_alice).
Proof.
  apply (student_attend_invalid (H := merge_sort_driver) alice_request
           "Alice" "2024-03-01" "482913" (T0 + minutes 15) (T0 + minutes 15)
           db_alice "210.108.18.50").
  - reflexivity.
  - intros (c & Hin & _ & _ & Hlt).
    apply list_elem_of_singleton in Hin. subst c. discriminate Hlt.
Defined.

(** Bob submits at 09:15 from outside: the same answer. *)
Example student_attend_bob_late :
  student_attend (H := merge_sort_driver) bob_request
    "Bob" "2024-03-01" "482913" (T0 + minutes 15) (T0 + minutes 15) db_alice
  = (inr {| result := Some (result_text CodeInvalidOrExpired);
            ip_status_message := Some (classify_ip "8.8.8.8").2;
            sessions := [] |},
     db_alice).
Proof. vm_compute. reflexivity. Qed.

(** Alice submits the second code of the session at 09:04: recorded
    once more. *)
Lemma student_attend_second_code_witness :
  let attend_doc :=
    Attend.mk "Alice" "2024-03-01" "771204" "210.108.18.50" NORMAL
      (classify_ip "210.108.18.50").2 (T0 + minutes 4) in
  let db' := with_attendance db_two_codes attend_doc in
  student_attend (H := merge_sort_driver) alice_request
    "Alice" "2024-03-01" "771204" (T0 + minutes 4) (T0 + minutes 4)
    db_two_codes
  = (inr {| result := Some (result_text Recorded);
            ip_status_message := Some (classify_ip "210.108.18.50").2;
            sessions := get_active_sessions (H := merge_sort_driver)
                          (T0 + minutes 4) db' |}, db')
  /\ has_record db' "Alice" "2024-03-01" "771204"
  /\ exists old,
       old ∈ attendance_collection db'
       /\ attend_doc ∈ attendance_collection db'
       /\ old <> attend_doc
       /\ Attend.student_name old = "Alice"
       /\ Attend.session_date old = "2024-03-01"
       /\ Attend.attendance_code old = "482913".
Proof.
  apply (student_attend_second_code (H := merge_sort_driver) alice_request
           "Alice" "2024-03-01" "482913" "771204"
           (T0 + minutes 4) (T0 + minutes 4) db_two_codes "210.108.18.50").
  - reflexivity.
  - discriminate.
  - exists alice_doc. split; [apply list_elem_of_here |].
    split; [reflexivity |]. split; reflexivity.
  - exists second_code. split; [apply list_elem_of_further, list_elem_of_here |].
    split; [reflexivity |]. split; reflexivity.
  - intros (a & Hin & _ & _ & Hc).
    apply list_elem_of_singleton in Hin. subst a. discriminate Hc.
Defined.

(** C10 as stated fails: Alice holds a record under the first code,
    both codes are valid at 09:05, she submits the second one, which
    differs from the first, and the answer is that she is already
    recorded: nothing is inserted, for she holds one under it too. *)
Lemma student_attend_second_code_again :
  has_record db_both_codes "Alice" "2024-03-01" "482913"
  /\ has_active_code db_both_codes "2024-03-01" "482913" (T0 + minutes 5)
  /\ has_active_code db_both_codes "2024-03-01" "771204" (T0 + minutes 5)
  /\ String.eqb "482913" "771204" = false
  /\ student_attend (H := merge_sort_driver) alice_request
       "Alice" "2024-03-01" "771204" (T0 + minutes 5) (T0 + minutes 5)
       db_both_codes
     = (inr {| result := Some (result_text AlreadyRecorded);
               ip_status_message := Some (classify_ip "210.108.18.50").2;
               sessions := [Session.mk "2024-03-01" "03/01 09:10"] |},
        db_both_codes).
Proof.
  split.
  { exists alice_doc. split; [apply list_elem_of_here |].
    split; [reflexivity |]. split; reflexivity. }
  split.
  { exists sample_code. split; [apply list_elem_of_here |].
    split; [reflexivity |]. split; reflexivity. }
  split.
  { exists second_code.
    split; [apply list_elem_of_further, list_elem_of_here |].
    split; [reflexivity |]. split; reflexivity. }
  split; [reflexivity |]. vm_compute. reflexivity.
Qed.

(** The teacher opens the code of the day with three records on it. *)
Lemma teacher_code_detail_lists_witness :
  exists page,
    teacher_code_detail (H := merge_sort_driver) sample_code_id
      (T0 + minutes 5) db_review = inr page
    /\ code page = sample_code
    /\ is_active page = bool_decide (T0 + minutes 5 < Code.valid_until sample_code)
    /\ length (attendance_list page)
       = Nat.min 500 (length (records_of sample_code db_review))
    /\ length (suspicious_list page)
       = Nat.min 500 (length (flagged_of sample_code db_review))
    /\ first_sorted Attend.timestamp Desc 500 (records_of sample_code db_review)
         (attendance_list page)
    /\ first_sorted Attend.timestamp Desc 500 (flagged_of sample_code db_review)
         (suspicious_list page)
    /\ StronglySorted (doc_le Attend.timestamp Desc) (attendance_list page)
    /\ StronglySorted (doc_le Attend.timestamp Desc) (suspicious_list page)
    /\ ((length (records_of sample_code db_review) <= 500)%nat ->
        attendance_list page ≡ₚ records_of sample_code db_review)
    /\ ((length (flagged_of sample_code db_review) <= 500)%nat ->
        suspicious_list page ≡ₚ flagged_of sample_code db_review
        /\ forall a, a ∈ records_of sample_code db_review ->
                     Attend.ip_status a = DEV -> a ∈ suspicious_list page).
Proof.
  apply (teacher_code_detail_lists (H := merge_sort_driver) sample_code_id
           (T0 + minutes 5) db_review sample_code).
  - reflexivity.
  - reflexivity.
Defined.

Example teacher_code_detail_review :
  teacher_code_detail (H := merge_sort_driver) sample_code_id
    (T0 + minutes 5) db_review
  = inr {| code := sample_code; is_active := true;
           attendance_list := reverse (attendance_collection db_review);
           suspicious_list :=
             reverse (drop 1 (attendance_collection db_review)) |}.
Proof. vm_compute. reflexivity. Qed.

(** C5 as stated fails: with 501 records on the code, none of them
    NORMAL, both lists stop at 500. *)
Lemma teacher_code_detail_capped :
  length (records_of sample_code db_crowded) = 501%nat
  /\ length (flagged_of sample_code db_crowded) = 501%nat
  /\ exists page,
       teacher_code_detail (H := merge_sort_driver) sample_code_id
         (T0 + minutes 5) db_crowded = inr page
       /\ length (attendance_list page) = 500%nat
       /\ length (suspicious_list page) = 500%nat.
Proof.
  split; [vm_compute; reflexivity |]. split; [vm_compute; reflexivity |].
  eexists. split; [reflexivity |]. split; vm_compute; reflexivity.
Qed.

(** C6 as stated fails: of 21 stored codes still valid, the active list
    shows 20, and the one expiring last is not among them. *)
Lemma teacher_page_capped :
  let late := code_expiring "session 20" 20 in
  late ∈ code_collection db_busy
  /\ T0 < Code.valid_until late
  /\ (late ∉ active_codes (teacher_page (H := merge_sort_driver) T0 db_busy))
  /\ length (active_codes (teacher_page (H := merge_sort_driver) T0 db_busy))
     = 20%nat.
Proof.
  split; [apply (bool_decide_unpack _); vm_compute; exact I |].
  split; [reflexivity |].
  split; [apply (bool_decide_unpack _); vm_compute; exact I |].
  vm_compute. reflexivity.
Qed.

(** C8 as stated fails: the session 2024-03-02 has a valid code, the
    101st to expire, and no entry in the picker. *)
Lemma get_active_sessions_capped :
  let next := code_expiring "2024-03-02" 100 in
  next ∈ code_collection db_regenerated
  /\ T0 < Code.valid_until next
  /\ get_active_sessions (H := merge_sort_driver) T0 db_regenerated
     = [Session.mk "2024-03-01" "03/01 09:10"]
  /\ (Code.session_date next
      ∉ Session.session_date
          <$> get_active_sessions (H := merge_sort_driver) T0 db_regenerated).
Proof.
  split; [apply (bool_decide_unpack _); vm_compute; exact I |].
  split; [reflexivity |].
  split; [vm_compute; reflexivity |].
  apply (bool_decide_unpack _). vm_compute. exact I.
Qed.


(** * Further properties of the handlers *)

(** ** The address of the client *)

Lemma append_String c s t :
  (String c s ++ t)%string = String c (s ++ t)%string.
Proof. reflexivity. Qed.

Lemma append_Empty t : (EmptyString ++ t)%string = t.
Proof. reflexivity. Qed.

Lemma lstrip_split s :
  exists l, s = (l ++ lstrip s)%string /\ all_space l
            /\ forall c t, lstrip s = String c t -> isspace c = false.
Proof.
  induction s as [|c s (l & Hs & Hl & Hhead)]; simpl.
  - exists EmptyString. split; [reflexivity |]. split; [constructor |].
    intros c t Heq. discriminate Heq.
  - destruct (isspace c) eqn:Hc.
    + exists (String c l). split; [rewrite append_String; f_equal; exact Hs |].
      split; [constructor; assumption | exact Hhead].
    + exists EmptyString. split; [reflexivity |]. split; [constructor |].
      intros c' t Heq. injection Heq as <- _. exact Hc.
Qed.

Lemma rstrip_cons c s :
  isspace c = false -> rstrip (String c s) = String c (rstrip s).
Proof. intros Hc. simpl. rewrite Hc. destruct (rstrip s); reflexivity. Qed.

Lemma rstrip_split s :
  exists r, s = (rstrip s ++ r)%string /\ all_space r
            /\ forall t c, rstrip s = (t ++ String c EmptyString)%string ->
                           isspace c = false.
Proof.
  induction s as [|c s (r & Hs & Hr & Hlast)].
  - exists EmptyString. split; [reflexivity |]. split; [constructor |].
    intros [|c' t] c Heq; discriminate Heq.
  - simpl. destruct (rstrip s) as [|c1 t1] eqn:Ht.
    + rewrite append_Empty in Hs. destruct (isspace c) eqn:Hc.
      * exists (String c r). split; [rewrite append_Empty; f_equal; exact Hs |].
        split; [constructor; assumption |].
        intros [|c' t] c0 Heq; discriminate Heq.
      * exists r. split; [rewrite append_String, append_Empty; f_equal; exact Hs |].
        split; [exact Hr |].
        intros [|c' t] c0 Heq.
        -- rewrite append_Empty in Heq. injection Heq as <-. exact Hc.
        -- rewrite append_String in Heq. injection Heq as _ Heq.
           destruct t; discriminate Heq.
    + exists r. split; [rewrite append_String; f_equal; exact Hs |].
      split; [exact Hr |].
      intros [|c' t] c0 Heq.
      * rewrite append_Empty in Heq. discriminate Heq.
      * rewrite append_String in Heq. injection Heq as _ Heq.
        apply (Hlast t c0 Heq).
Qed.

Lemma strip_split s :
  exists l r, s = (l ++ strip s ++ r)%string
              /\ all_space l /\ all_space r /\ trimmed (strip s).
Proof.
  unfold strip.
  destruct (lstrip_split s) as (l & Hs & Hl & Hhead).
  destruct (rstrip_split (lstrip s)) as (r & Hs' & Hr & Hlast).
  exists l, r. split; [rewrite <- Hs'; exact Hs |].
  split; [exact Hl |]. split; [exact Hr |].
  split; [| exact Hlast].
  intros c t Heq. destruct (lstrip s) as [|c0 s0] eqn:Hls.
  - discriminate Heq.
  - pose proof (Hhead c0 s0 eq_refl) as Hc0.
    rewrite (rstrip_cons c0 s0 Hc0) in Heq. injection Heq as <- _. exact Hc0.
Qed.

Lemma split_first_split sep s :
  (sep ∉ list_ascii_of_string (split_first sep s))
  /\ (s = split_first sep s
      \/ exists rest, s = (split_first sep s ++ String sep rest)%string).
Proof.
  induction s as [|c s [Hno Hs]]; simpl.
  - split; [intros Hin; inversion Hin | left; reflexivity].
  - destruct (Ascii.eqb_spec c sep) as [-> | Hne]; simpl.
    + split; [intros Hin; inversion Hin | right; exists s; reflexivity].
    + split.
      * rewrite elem_of_cons. intros [-> | Hin]; [congruence | contradiction].
      * destruct Hs as [Hs | [rest Hs]]; [left | right; exists rest];
          rewrite ?append_String; f_equal; exact Hs.
Qed.

Lemma list_ascii_of_string_app s t :
  list_ascii_of_string (s ++ t)
  = (list_ascii_of_string s ++ list_ascii_of_string t)%list.
Proof.
  induction s as [|c s IH]; [reflexivity |].
  rewrite append_String. simpl. f_equal. exact IH.
Qed.

(** X1.  [get_client_ip] raises exactly when the request has no
    X-Forwarded-For header, or an empty one, and no client; what it
    raises is then [AttributeError]. *)
Theorem get_client_ip_raises_iff (request : Request) (e : exn) :
  get_client_ip request = inl e
  <-> e = AttributeError
      /\ client request = None
      /\ (headers_get (headers request) "x-forwarded-for" = None
          \/ headers_get (headers request) "x-forwarded-for" = Some "").
Proof.
  unfold get_client_ip, truthy.
  destruct (headers_get (headers request) "x-forwarded-for") as [x|].
  - destruct (String.eqb_spec x "") as [-> | Hx]; simpl.
    + destruct (client request) as [a|]; split.
      * intros Heq. discriminate Heq.
      * intros (_ & Hc & _). discriminate Hc.
      * intros Heq. injection Heq as <-. auto.
      * intros (-> & _). reflexivity.
    + split; [intros Heq; discriminate Heq |].
      intros (_ & _ & [Hh | Hh]); [discriminate Hh | congruence].
  - destruct (client request) as [a|]; split.
    + intros Heq. discriminate Heq.
    + intros (_ & Hc & _). discriminate Hc.
    + intros Heq. injection Heq as <-. auto.
    + intros (-> & _). reflexivity.
Qed.

(** X2.  With a non-empty X-Forwarded-For header the address is cut out
    of the header alone, client or no client: it is the part before the
    first comma (the whole value when there is none) without the
    whitespace at its two ends.  So it holds no comma and neither starts
    nor ends with whitespace. *)
Theorem get_client_ip_forwarded_entry (request : Request) (xff : string) :
  headers_get (headers request) "x-forwarded-for" = Some xff ->
  xff <> "" ->
  exists entry l ip r,
    get_client_ip request = inr ip
    /\ (xff = entry \/ exists rest, xff = (entry ++ String "," rest)%string)
    /\ entry = (l ++ ip ++ r)%string
    /\ all_space l /\ all_space r /\ trimmed ip
    /\ ("," : ascii) ∉ list_ascii_of_string ip.
Proof.
  intros Hget Hne.
  destruct (split_first_split "," xff) as [Hcomma Hentry].
  destruct (strip_split (split_first "," xff)) as (l & r & Hs & Hl & Hr & Ht).
  exists (split_first "," xff), l, (strip (split_first "," xff)), r.
  split; [apply get_client_ip_forwarded; assumption |].
  split; [exact Hentry |]. split; [exact Hs |].
  split; [exact Hl |]. split; [exact Hr |]. split; [exact Ht |].
  intros Hin. apply Hcomma. rewrite Hs, !list_ascii_of_string_app, !elem_of_app.
  auto.
Qed.

Lemma or_str_nonempty x y : y <> "" -> or_str x y <> "".
Proof.
  intros Hy. unfold or_str, truthy. destruct x as [s|]; [| exact Hy].
  destruct (String.eqb_spec s ""); simpl; assumption.
Qed.

(** X3.  The address is empty only by the header: when [get_client_ip]
    returns the empty string, the request carries a non-empty
    X-Forwarded-For header whose first entry is nothing but whitespace.
    An address taken from the client is never empty. *)
Theorem get_client_ip_empty_from_header (request : Request) :
  get_client_ip request = inr "" ->
  exists xff,
    headers_get (headers request) "x-forwarded-for" = Some xff
    /\ xff <> ""
    /\ all_space (split_first "," xff).
Proof.
  unfold get_client_ip, truthy.
  assert (forall a : Address, or_str (host a) "unknown" <> "") as Hpeer.
  { intros a. apply or_str_nonempty. discriminate. }
  destruct (headers_get (headers request) "x-forwarded-for") as [x|].
  - destruct (String.eqb_spec x "") as [-> | Hx]; simpl.
    + destruct (client request) as [a|]; intros Heq; [| discriminate Heq].
      injection Heq as Heq. destruct (Hpeer a Heq).
    + intros Heq. injection Heq as Heq. exists x.
      split; [reflexivity |]. split; [exact Hx |].
      destruct (strip_split (split_first "," x)) as (l & r & Hs & Hl & Hr & _).
      rewrite Heq, append_Empty in Hs. rewrite Hs. unfold all_space in *.
      rewrite list_ascii_of_string_app. apply Forall_app. auto.
  - destruct (client request) as [a|]; intros Heq; [| discriminate Heq].
    injection Heq as Heq. destruct (Hpeer a Heq).
Qed.

(** ** One submission, and two *)

Lemma find_one_Some {A} (P : A -> Prop) `{forall x, Decision (P x)}
  (l : list A) x :
  find_one P l = Some x -> x ∈ l /\ P x.
Proof.
  unfold find_one. intros Hf. apply fmap_Some in Hf as ([i y] & Hf & ->).
  apply list_find_Some in Hf as (Hl & HP & _). simpl.
  split; [eapply list_elem_of_lookup_2, Hl | exact HP].
Qed.

Lemma get_active_sessions_codes `{Driver} (now : Z) (db1 db2 : Database) :
  code_collection db1 = code_collection db2 ->
  get_active_sessions now db1 = get_active_sessions now db2.
Proof. intros Heq. unfold get_active_sessions. rewrite Heq. reflexivity. Qed.

(** The three ways a submission with an address can go. *)
Lemma student_attend_cases `{Driver} (request : Request)
  (student_name session_date attendance_code : string) (now now_sessions : Z)
  (db : Database) (client_ip : string) :
  get_client_ip request = inr client_ip ->
  let answer o db' :=
    (inr {| result := Some (result_text o);
            ip_status_message := Some (classify_ip client_ip).2;
            sessions := get_active_sessions now_sessions db' |}, db') in
  let attend_doc :=
    Attend.mk student_name session_date attendance_code client_ip
      (classify_ip client_ip).1 (classify_ip client_ip).2 (floor_ms now) in
  let out :=
    student_attend request student_name session_date attendance_code
      now now_sessions db in
  (~ has_active_code db session_date attendance_code now
   /\ out = answer CodeInvalidOrExpired db)
  \/ (has_active_code db session_date attendance_code now
      /\ has_record db student_name session_date attendance_code
      /\ out = answer AlreadyRecorded db)
  \/ (has_active_code db session_date attendance_code now
      /\ ~ has_record db student_name session_date attendance_code
      /\ out = answer Recorded (with_attendance db attend_doc)).
Proof.
  intros Hip answer attend_doc out. subst out answer attend_doc.
  unfold student_attend. rewrite Hip.
  destruct (classify_ip client_ip) as [st msg]. simpl.
  destruct (find_one _ (code_collection db)) as [c|] eqn:Hcode.
  - apply find_one_Some in Hcode as [Hin Hc].
    assert (has_active_code db session_date attendance_code now) as Hact
      by (exists c; auto).
    destruct (find_one _ (attendance_collection db)) as [a|] eqn:Hrec.
    + apply find_one_Some in Hrec as [Hina (Hs & Hac & Hn)].
      right; left. split; [exact Hact |]. split; [exists a; auto | reflexivity].
    + right; right. split; [exact Hact |]. split; [| reflexivity].
      intros (a & Hina & Hn & Hs & Hac).
      apply (proj1 (find_one_None _ _) Hrec a Hina). auto.
  - left. split; [| reflexivity].
    intros (c & Hin & Hc). apply (proj1 (find_one_None _ _) Hcode c Hin Hc).
Qed.

Lemma with_attendance_neq db a : with_attendance db a <> db.
Proof.
  intros Heq. apply (f_equal (fun d => length (attendance_collection d))) in Heq.
  simpl in Heq. rewrite length_app in Heq. simpl in Heq. lia.
Qed.

(** X4.  What a submission can and cannot do.  It never touches the
    codes.  When it raises, nothing is written.  When it answers, the
    answer is one of the three texts, with the message of the address's
    classification and the picker of the database as it was before; the
    database is changed exactly when the text is the Recorded one, and
    then by one record appended, with the submitted triple and [now]
    cut to the millisecond. *)
Theorem student_attend_frame `{Driver} (request : Request)
  (student_name session_date attendance_code : string) (now now_sessions : Z)
  (db : Database) :
  let out :=
    student_attend request student_name session_date attendance_code
      now now_sessions db in
  code_collection out.2 = code_collection db
  /\ (forall e, out.1 = inl e -> out.2 = db)
  /\ (forall page, out.1 = inr page ->
        sessions page = get_active_sessions now_sessions db
        /\ exists client_ip o,
             get_client_ip request = inr client_ip
             /\ result page = Some (result_text o)
             /\ ip_status_message page = Some (classify_ip client_ip).2
             /\ (out.2 <> db <-> o = Recorded)
             /\ (o = Recorded ->
                 out.2 = with_attendance db
                           (Attend.mk student_name session_date attendance_code
                              client_ip (classify_ip client_ip).1
                              (classify_ip client_ip).2 (floor_ms now)))).
Proof.
  intros out. destruct (get_client_ip request) as [e | client_ip] eqn:Hip.
  { subst out. unfold student_attend. rewrite Hip. simpl.
    split; [reflexivity |]. split; [reflexivity |].
    intros page Heq. discriminate Heq. }
  destruct (student_attend_cases request student_name session_date
              attendance_code now now_sessions db client_ip Hip)
    as [(_ & Hout) | [(_ & _ & Hout) | (_ & _ & Hout)]];
    fold out in Hout; rewrite Hout; simpl.
  - split; [reflexivity |]. split; [reflexivity |].
    intros page Heq. injection Heq as <-. simpl. split; [reflexivity |].
    exists client_ip, CodeInvalidOrExpired. repeat split; try reflexivity.
    + intros Hne. destruct (Hne eq_refl).
    + intros Heq. discriminate Heq.
    + intros Heq. discriminate Heq.
  - split; [reflexivity |]. split; [reflexivity |].
    intros page Heq. injection Heq as <-. simpl. split; [reflexivity |].
    exists client_ip, AlreadyRecorded. repeat split; try reflexivity.
    + intros Hne. destruct (Hne eq_refl).
    + intros Heq. discriminate Heq.
    + intros Heq. discriminate Heq.
  - split; [reflexivity |].
    split; [intros e Heq; discriminate Heq |].
    intros page Heq. injection Heq as <-. simpl. split; [reflexivity |].
    exists client_ip, Recorded. repeat split; try reflexivity.
    intros _. apply with_attendance_neq.
Qed.

Lemma unique_triples_with_attendance db a :
  unique_triples db ->
  ~ has_record db (Attend.student_name a) (Attend.session_date a)
      (Attend.attendance_code a) ->
  unique_triples (with_attendance db a).
Proof.
  unfold unique_triples. intros Hu Hnew. simpl. rewrite fmap_app.
  apply NoDup_app. split; [exact Hu |]. split; [| apply NoDup_singleton].
  intros t Hin Ht. apply list_elem_of_singleton in Ht. subst t.
  apply list_elem_of_fmap in Hin as (b & Heq & Hb). apply Hnew.
  exists b. unfold triple_of in Heq. injection Heq as Hn Hs Hc. auto.
Qed.

(** The handler is its two parts run one after the other on one
    database. *)
Lemma student_attend_phases `{Driver} (request : Request)
  (student_name session_date attendance_code : string) (now now_sessions : Z)
  (db : Database) :
  student_attend request student_name session_date attendance_code
    now now_sessions db
  = match student_attend_decide request student_name session_date
            attendance_code now db with
    | inl e => (inl e, db)
    | inr (text, message, attend_doc) =>
        let db' := student_attend_commit attend_doc db in
        (inr {| result := Some text;
                ip_status_message := Some message;
                sessions := get_active_sessions now_sessions db' |}, db')
    end.
Proof.
  unfold student_attend, student_attend_decide.
  destruct (get_client_ip request) as [e | client_ip]; [reflexivity |].
  destruct (classify_ip client_ip) as [st msg].
  destruct (find_one _ (code_collection db)) as [c|]; [| reflexivity].
  destruct (find_one _ (attendance_collection db)) as [a|]; reflexivity.
Qed.

(** What the first part hands to the insert: nothing, or a document
    with the submitted triple that the records it looked at lack. *)
Lemma student_attend_decide_new (request : Request)
  (student_name session_date attendance_code : string) (now : Z)
  (db : Database) text message d :
  student_attend_decide request student_name session_date attendance_code
    now db = inr (text, message, Some d) ->
  text = result_text Recorded
  /\ triple_of d = (student_name, session_date, attendance_code)
  /\ has_active_code db session_date attendance_code now
  /\ ~ has_record db student_name session_date attendance_code.
Proof.
  unfold student_attend_decide.
  destruct (get_client_ip request) as [e | client_ip];
    [intros Heq; discriminate Heq |].
  destruct (classify_ip client_ip) as [st msg].
  destruct (find_one _ (code_collection db)) as [c|] eqn:Hcode;
    [| intros Heq; discriminate Heq].
  destruct (find_one _ (attendance_collection db)) as [a|] eqn:Hrec;
    intros Heq; [discriminate Heq |].
  injection Heq as <- _ <-. split; [reflexivity |]. split; [reflexivity |].
  apply find_one_Some in Hcode as [Hin Hc]. split; [exists c; auto |].
  intros (a & Hina & Hn & Hs & Hac).
  apply (proj1 (find_one_None _ _) Hrec a Hina). auto.
Qed.

(** X5.  A submission keeps the records unique when nothing is written
    between its check and its insert.  If the attendance records are,
    when the insert of line 145 runs, those the look-up of line 125
    saw, and no two of them carry the same (student_name, session_date,
    code) triple, then none do after the insert either. *)
Theorem student_attend_keeps_unique (request : Request)
  (student_name session_date attendance_code : string) (now : Z)
  (db_seen db : Database) text message attend_doc :
  student_attend_decide request student_name session_date attendance_code
    now db_seen = inr (text, message, attend_doc) ->
  attendance_collection db = attendance_collection db_seen ->
  unique_triples db ->
  unique_triples (student_attend_commit attend_doc db).
Proof.
  intros Hdecide Hsame Hu. destruct attend_doc as [d|]; [| exact Hu].
  apply student_attend_decide_new in Hdecide as (_ & Htriple & _ & Hnew).
  unfold student_attend_commit, insert_one.
  apply (unique_triples_with_attendance db (stored d) Hu).
  unfold triple_of in Htriple. simpl. injection Htriple as -> -> ->.
  intros (a & Hin & Ha). apply Hnew. exists a. rewrite <- Hsame. auto.
Qed.

(** X24.  Two submissions whose checks both run before either insert.
    When two requests submit the same triple for a valid code, no
    record for it exists, and both look-ups of line 125 run before
    either insert of line 145, both are answered with the Recorded text
    and both insert: the student ends with two records for the triple. *)
Theorem student_attend_race (request1 request2 : Request)
  (student_name session_date attendance_code : string) (now1 now2 : Z)
  (db : Database) (ip1 ip2 : string) :
  get_client_ip request1 = inr ip1 ->
  get_client_ip request2 = inr ip2 ->
  has_active_code db session_date attendance_code now1 ->
  has_active_code db session_date attendance_code now2 ->
  ~ has_record db student_name session_date attendance_code ->
  exists d1 d2,
    student_attend_decide request1 student_name session_date attendance_code
      now1 db = inr (result_text Recorded, (classify_ip ip1).2, Some d1)
    /\ student_attend_decide request2 student_name session_date
         attendance_code now2 db
       = inr (result_text Recorded, (classify_ip ip2).2, Some d2)
    /\ attendance_collection
         (student_attend_commit (Some d2)
            (student_attend_commit (Some d1) db))
       = (attendance_collection db ++ [stored d1; stored d2])%list
    /\ triple_of (stored d1) = (student_name, session_date, attendance_code)
    /\ triple_of (stored d2) = (student_name, session_date, attendance_code)
    /\ ~ unique_triples
           (student_attend_commit (Some d2)
              (student_attend_commit (Some d1) db)).
Proof.
  intros Hip1 Hip2 Hact1 Hact2 Hnew.
  assert (forall request now ip,
            get_client_ip request = inr ip ->
            has_active_code db session_date attendance_code now ->
            student_attend_decide request student_name session_date
              attendance_code now db
            = inr (result_text Recorded, (classify_ip ip).2,
                   Some (Attend.mk student_name session_date attendance_code
                           ip (classify_ip ip).1 (classify_ip ip).2 now)))
    as Hdecide.
  { intros request now ip Hip Hact. unfold student_attend_decide.
    rewrite Hip. destruct (classify_ip ip) as [st msg].
    destruct (find_code_active _ _ _ _ Hact) as [c ->].
    rewrite (find_record_none _ _ _ _ Hnew). reflexivity. }
  eexists. eexists.
  split; [apply (Hdecide request1 now1 ip1 Hip1 Hact1) |].
  split; [apply (Hdecide request2 now2 ip2 Hip2 Hact2) |].
  unfold student_attend_commit, insert_one. simpl.
  split; [rewrite <- app_assoc; reflexivity |].
  split; [reflexivity |]. split; [reflexivity |].
  unfold unique_triples. simpl.
  rewrite <- app_assoc, fmap_app. simpl. intros Hnodup.
  apply NoDup_app in Hnodup as (_ & _ & Hnodup).
  apply NoDup_cons in Hnodup as [Hnotin _]. apply Hnotin.
  apply list_elem_of_here.
Qed.

(** X6.  The same triple submitted twice.  When the code is valid at
    both times, the second submission, from whatever address, gets the
    AlreadyRecorded text and leaves the database as the first one left
    it, whether the first one recorded the student or found a record. *)
Theorem student_attend_twice `{Driver} (request1 request2 : Request)
  (student_name session_date attendance_code : string)
  (now1 now_sessions1 now2 now_sessions2 : Z) (db : Database)
  (ip1 ip2 : string) :
  get_client_ip request1 = inr ip1 ->
  get_client_ip request2 = inr ip2 ->
  has_active_code db session_date attendance_code now1 ->
  has_active_code db session_date attendance_code now2 ->
  let db1 :=
    (student_attend request1 student_name session_date attendance_code
       now1 now_sessions1 db).2 in
  has_record db1 student_name session_date attendance_code
  /\ student_attend request2 student_name session_date attendance_code
       now2 now_sessions2 db1
     = (inr {| result := Some (result_text AlreadyRecorded);
               ip_status_message := Some (classify_ip ip2).2;
               sessions := get_active_sessions now_sessions2 db1 |}, db1).
Proof.
  intros Hip1 Hip2 Hact1 Hact2 db1.
  assert (code_collection db1 = code_collection db
          /\ has_record db1 student_name session_date attendance_code)
    as [Hcodes Hrec].
  { subst db1.
    destruct (student_attend_cases request1 student_name session_date
                attendance_code now1 now_sessions1 db ip1 Hip1)
      as [(Hno & _) | [(_ & Hold & Hout) | (_ & _ & Hout)]];
      [contradiction | |]; rewrite Hout; simpl.
    - split; [reflexivity | exact Hold].
    - split; [reflexivity |]. eexists. simpl.
      rewrite elem_of_app, list_elem_of_singleton.
      split; [right; reflexivity |]. simpl. auto. }
  split; [exact Hrec |].
  assert (has_active_code db1 session_date attendance_code now2) as Hact.
  { destruct Hact2 as (c & Hin & Hc). exists c. rewrite Hcodes. auto. }
  destruct (student_attend_cases request2 student_name session_date
              attendance_code now2 now_sessions2 db1 ip2 Hip2)
    as [(Hno & _) | [(_ & _ & Hout) | (_ & Hnew & _)]];
    [contradiction | exact Hout | contradiction].
Qed.

(** ** Codes, from their making to their use *)

Lemma getitem_elem_of {A} (l : list A) (i : Z) x :
  getitem l i = inr x -> x ∈ l.
Proof.
  unfold getitem. destruct (_ && _); [| intros Heq; discriminate Heq].
  destruct (l !! _) as [y|] eqn:Hy; intros Heq; [| discriminate Heq].
  injection Heq as <-. eapply list_elem_of_lookup_2, Hy.
Qed.

Lemma choices_from_inr {A} (random : nat -> Q) (population : list A)
  (k i : nat) xs :
  choices_from random population i k = inr xs ->
  length xs = k /\ Forall (fun x => x ∈ population) xs.
Proof.
  revert i xs. induction k as [|k IH]; intros i xs; cbn [choices_from].
  - intros Heq. injection Heq as <-. split; [reflexivity | constructor].
  - destruct (getitem population _) as [e | x] eqn:Hx; cbn [ebind];
      [intros Heq; discriminate Heq |].
    destruct (choices_from random population (S i) k) as [e | ys] eqn:Hys;
      cbn [ebind]; intros Heq; [discriminate Heq |].
    injection Heq as <-. destruct (IH _ _ Hys) as [Hlen Hall].
    split; [simpl; congruence |].
    constructor; [eapply getitem_elem_of, Hx | exact Hall].
Qed.

Lemma elem_of_digits c : c ∈ list_ascii_of_string digits -> is_digit c.
Proof.
  unfold digits. cbn [list_ascii_of_string]. intros Hin.
  repeat (apply elem_of_cons in Hin as [Hc | Hin];
          [rewrite Hc; unfold is_digit; vm_compute; lia |]).
  inversion Hin.
Qed.

(** Whatever the generator draws, a code that comes back has the length
    asked for and holds digits only. *)
Lemma generate_code_inr (random : nat -> Q) (n : nat) code :
  generate_code random n = inr code ->
  String.length code = n /\ Forall is_digit (list_ascii_of_string code).
Proof.
  unfold generate_code, choices.
  destruct (choices_from random _ 0 n) as [e | cs] eqn:Hcs; cbn [ebind];
    intros Heq; [discriminate Heq |].
  injection Heq as <-. destruct (choices_from_inr _ _ _ _ _ Hcs) as [Hlen Hall].
  rewrite length_string_of_list_ascii, list_ascii_of_string_of_list_ascii.
  split; [exact Hlen |].
  eapply Forall_impl; [exact Hall | apply elem_of_digits].
Qed.

(** X7.  [generate_code] for any length: with draws in [0, 1) it always
    returns, and what it returns is a string of exactly [length]
    characters, all digits; for length 0 the empty string. *)
Theorem generate_code_digits (random : nat -> Q) (n : nat) :
  unit_draws random ->
  exists code,
    generate_code random n = inr code
    /\ String.length code = n
    /\ Forall is_digit (list_ascii_of_string code)
    /\ (n = 0%nat -> code = "").
Proof.
  intros Hu. pose proof (generate_code_draws random n Hu) as Hgen.
  eexists. split; [exact Hgen |].
  destruct (generate_code_inr _ _ _ Hgen) as [Hlen Hall].
  split; [exact Hlen |]. split; [exact Hall |].
  intros ->. reflexivity.
Qed.

(** How a call of [create_code] ends: with an exception and the
    database as it was, or with the redirect and one code appended. *)
Lemma create_code_inv (random : nat -> Q) (new_id : oid)
  (session_date : string) (minutes_valid now : Z) (db : Database) r db' :
  create_code random new_id session_date minutes_valid now db = (r, db') ->
  (exists e, r = inl e /\ db' = db
             /\ (e = IndexError \/ e = OverflowError))
  \/ (exists code,
        r = inr {| url := "/teacher"; status_code := 303 |}
        /\ six_digits code
        /\ 0 <= now + minutes_valid * US_PER_MINUTE <= DATETIME_MAX
        /\ db' = {| code_collection :=
                      code_collection db
                      ++ [Code.mk new_id session_date code (floor_ms now)
                            (floor_ms now + minutes_valid * US_PER_MINUTE)];
                    attendance_collection := attendance_collection db |}).
Proof.
  unfold create_code.
  destruct (generate_code random 6) as [e | code] eqn:Hgen; cbn [ebind].
  { intros Heq. injection Heq as <- <-. left. exists e.
    split; [reflexivity |]. split; [reflexivity |].
    unfold generate_code, choices in Hgen.
    destruct (choices_from random _ 0 6) as [e' | cs] eqn:Hcs;
      cbn [ebind] in Hgen; [| discriminate Hgen].
    injection Hgen as <-. left.
    clear -Hcs. revert Hcs. generalize 0%nat at 1. generalize 6%nat.
    intros k. induction k as [|k IH]; intros i; cbn [choices_from].
    - intros Heq. discriminate Heq.
    - destruct (getitem _ _) as [e1 | x] eqn:Hx; cbn [ebind].
      + intros Heq. injection Heq as <-. unfold getitem in Hx.
        destruct (_ && _); [| congruence].
        destruct (_ !! _); congruence.
      + destruct (choices_from random _ (S i) k) as [e2 | ys] eqn:Hys;
          cbn [ebind]; intros Heq; [| discriminate Heq].
        injection Heq as <-. apply (IH (S i) Hys). }
  unfold timedelta_minutes.
  destruct (_ && _); cbn [ebind];
    [| intros Heq; injection Heq as <- <-; left; exists OverflowError; auto].
  unfold datetime_add.
  destruct (Z.leb_spec 0 (now + minutes_valid * US_PER_MINUTE)); simpl;
    [| intros Heq; injection Heq as <- <-; left; exists OverflowError; auto].
  destruct (Z.leb_spec (now + minutes_valid * US_PER_MINUTE) DATETIME_MAX);
    simpl;
    [| intros Heq; injection Heq as <- <-; left; exists OverflowError; auto].
  intros Heq. injection Heq as <- <-. right. exists code.
  split; [reflexivity |].
  split; [exact (generate_code_inr _ _ _ Hgen) |].
  split; [lia |].
  unfold insert_one, stored, Code_stored. simpl.
  rewrite floor_ms_add_minutes. reflexivity.
Qed.

(** X8.  What a call of [create_code] can and cannot do, whatever its
    arguments.  It never touches the attendance records and never
    changes or removes a stored code.  When it raises, nothing is
    written.  When it redirects, exactly one code is appended, with the
    given [_id] and session date, six digits as its code value,
    [created_at] equal to [now] cut to the millisecond and
    [valid_until] that many minutes later; [now] plus that many minutes
    is then a [datetime] of the years 1 to 9999. *)
Theorem create_code_frame (random : nat -> Q) (new_id : oid)
  (session_date : string) (minutes_valid now : Z) (db : Database) :
  let out := create_code random new_id session_date minutes_valid now db in
  attendance_collection out.2 = attendance_collection db
  /\ (forall e, out.1 = inl e -> out.2 = db)
  /\ (forall r, out.1 = inr r ->
        r = {| url := "/teacher"; status_code := 303 |}
        /\ exists code,
             six_digits code
             /\ 0 <= now + minutes_valid * US_PER_MINUTE <= DATETIME_MAX
             /\ code_collection out.2
                = (code_collection db
                   ++ [Code.mk new_id session_date code (floor_ms now)
                         (floor_ms now + minutes_valid * US_PER_MINUTE)])%list).
Proof.
  intros out. subst out.
  destruct (create_code random new_id session_date minutes_valid now db)
    as [r0 db'] eqn:Hcc. simpl.
  destruct (create_code_inv random new_id session_date minutes_valid now db
              r0 db' Hcc)
    as [(e & Hr & Hdb & _) | (code & Hr & Hsix & Hrange & Hdb)];
    rewrite Hr, Hdb.
  - split; [reflexivity |]. split; [reflexivity |].
    intros r Heq. discriminate Heq.
  - split; [reflexivity |]. split; [intros e Heq; discriminate Heq |].
    intros r Heq. injection Heq as <-. split; [reflexivity |].
    exists code. split; [exact Hsix |]. split; [exact Hrange | reflexivity].
Qed.

(** X9.  When [create_code] fails.  With draws in [0, 1) and [now] a
    [datetime], the call raises exactly when [now] plus [minutes_valid]
    minutes is outside the years 1 to 9999, and what it raises is
    [OverflowError]. *)
Theorem create_code_raises_iff (random : nat -> Q) (new_id : oid)
  (session_date : string) (minutes_valid now : Z) (db : Database) (e : exn) :
  unit_draws random ->
  0 <= now <= DATETIME_MAX ->
  (create_code random new_id session_date minutes_valid now db).1 = inl e
  <-> e = OverflowError
      /\ ~ (0 <= now + minutes_valid * US_PER_MINUTE <= DATETIME_MAX).
Proof.
  intros Hu Hnow. split.
  - intros Hraise.
    destruct (Z_le_dec 0 (now + minutes_valid * US_PER_MINUTE)) as [Hlo | Hlo];
      [destruct (Z_le_dec (now + minutes_valid * US_PER_MINUTE) DATETIME_MAX)
         as [Hhi | Hhi] |].
    + exfalso. revert Hraise. unfold create_code.
      rewrite (generate_code_draws random 6 Hu). cbn [ebind].
      rewrite (timedelta_minutes_in_range now minutes_valid Hnow (conj Hlo Hhi)).
      cbn [ebind]. unfold datetime_add.
      destruct (Z.leb_spec 0 (now + minutes_valid * US_PER_MINUTE)); [| lia].
      destruct (Z.leb_spec (now + minutes_valid * US_PER_MINUTE) DATETIME_MAX);
        [| lia].
      intros Heq. discriminate Heq.
    + rewrite create_code_overflow in Hraise by (auto; lia).
      injection Hraise as <-. split; [reflexivity | lia].
    + rewrite create_code_overflow in Hraise by (auto; lia).
      injection Hraise as <-. split; [reflexivity | lia].
  - intros (-> & Hout). rewrite create_code_overflow by assumption. reflexivity.
Qed.

Lemma find_one_cons {A} (P : A -> Prop) `{forall x, Decision (P x)}
  (a : A) (l : list A) :
  find_one P (a :: l) = if decide (P a) then Some a else find_one P l.
Proof.
  unfold find_one. cbn [list_find]. destruct (decide (P a)); [reflexivity |].
  destruct (list_find P l) as [[i y]|]; reflexivity.
Qed.

Lemma find_one_app_not {A} (P : A -> Prop) `{forall x, Decision (P x)}
  (l : list A) (x : A) :
  ~ P x -> find_one P (l ++ [x])%list = find_one P l.
Proof.
  intros Hx. induction l as [|a l IH]; simpl; rewrite !find_one_cons.
  - destruct (decide (P x)); [contradiction | reflexivity].
  - destruct (decide (P a)); [reflexivity | exact IH].
Qed.

Lemma find_one_app_fresh {A} (P : A -> Prop) `{forall x, Decision (P x)}
  (l : list A) (x : A) :
  (forall y, y ∈ l -> ~ P y) -> P x -> find_one P (l ++ [x])%list = Some x.
Proof.
  intros Hl Hx. induction l as [|a l IH]; simpl; rewrite !find_one_cons.
  - destruct (decide (P x)); [reflexivity | contradiction].
  - destruct (decide (P a)) as [Ha | _].
    + destruct (Hl a (list_elem_of_here _ _) Ha).
    + apply IH. intros y Hy. apply Hl, list_elem_of_further, Hy.
Qed.

Lemma filter_snoc_not {A} (P : A -> Prop) `{forall x, Decision (P x)}
  (l : list A) (x : A) :
  ~ P x -> filter P (l ++ [x])%list = filter P l.
Proof.
  intros Hx. rewrite filter_app, (filter_cons_False P x []) by exact Hx.
  rewrite filter_nil. apply app_nil_r.
Qed.

Lemma filter_snoc {A} (P : A -> Prop) `{forall x, Decision (P x)}
  (l : list A) (x : A) :
  P x -> filter P (l ++ [x])%list = (filter P l ++ [x])%list.
Proof.
  intros Hx. rewrite filter_app, (filter_cons_True P x []) by exact Hx.
  rewrite filter_nil. reflexivity.
Qed.

Section CreateThenUse.
Context `{Driver}.
Variables (random : nat -> Q) (new_id : oid) (session_date : string).
Variables (minutes_valid now : Z) (db db1 : Database) (r : Redirect).
Hypothesis Hcreate :
  create_code random new_id session_date minutes_valid now db = (inr r, db1).

Lemma created_code :
  exists code,
    six_digits code
    /\ db1 = {| code_collection :=
                  code_collection db
                  ++ [Code.mk new_id session_date code (floor_ms now)
                        (floor_ms now + minutes_valid * US_PER_MINUTE)];
                attendance_collection := attendance_collection db |}.
Proof.
  destruct (create_code_inv _ _ _ _ _ _ _ _ Hcreate)
    as [(e & Hr & _) | (code & _ & Hsix & _ & Hdb)]; [discriminate Hr |].
  exists code. split; assumption.
Qed.

(** X10.  A code is good from its making to its stored expiry.  After
    [create_code] has redirected, a submission of the new code for its
    session at any time before the [valid_until] that was stored, which
    is [now] cut to the millisecond plus [minutes_valid] minutes, is
    never refused as invalid: it is recorded, or found recorded. *)
Theorem create_code_then_attend (request : Request) (student_name : string)
  (t t_sessions : Z) (client_ip : string) :
  get_client_ip request = inr client_ip ->
  t < floor_ms now + minutes_valid * US_PER_MINUTE ->
  exists code page,
    code_collection db1
    = (code_collection db
       ++ [Code.mk new_id session_date code (floor_ms now)
             (floor_ms now + minutes_valid * US_PER_MINUTE)])%list
    /\ (student_attend request student_name session_date code
          t t_sessions db1).1 = inr page
    /\ (result page = Some (result_text Recorded)
        \/ result page = Some (result_text AlreadyRecorded)).
Proof.
  intros Hip Ht. destruct created_code as (code & _ & Hdb).
  assert (has_active_code db1 session_date code t) as Hact.
  { eexists. rewrite Hdb. simpl. rewrite elem_of_app, list_elem_of_singleton.
    split; [right; reflexivity |]. simpl. auto. }
  destruct (student_attend_cases request student_name session_date code
              t t_sessions db1 client_ip Hip)
    as [(Hno & _) | [(_ & _ & Hout) | (_ & _ & Hout)]]; [contradiction | |];
    exists code; eexists; rewrite Hout, Hdb; simpl;
    (split; [reflexivity |]); (split; [reflexivity |]); auto.
Qed.

(** X11.  A code made with no time to live is never seen by a student.
    After [create_code] with [minutes_valid <= 0] has redirected, at
    any time from [now] on the picker is the one of the database
    without the new code, and every submission gets the answer, and
    leaves the records, it would have without it. *)
Theorem create_code_expired_at_birth (request : Request)
  (student_name sd attendance_code : string) (t t_sessions : Z) :
  minutes_valid <= 0 ->
  now <= t -> now <= t_sessions ->
  get_active_sessions t_sessions db1 = get_active_sessions t_sessions db
  /\ (student_attend request student_name sd attendance_code
        t t_sessions db1).1
     = (student_attend request student_name sd attendance_code
          t t_sessions db).1
  /\ attendance_collection
       (student_attend request student_name sd attendance_code
          t t_sessions db1).2
     = attendance_collection
         (student_attend request student_name sd attendance_code
            t t_sessions db).2.
Proof.
  intros Hm Ht Hts. destruct created_code as (code & _ & Hdb).
  assert (floor_ms now + minutes_valid * US_PER_MINUTE <= now) as Hexp
    by (pose proof (floor_ms_le now); unfold US_PER_MINUTE; lia).
  assert (forall d1 d2 : Database,
            code_collection d1
            = (code_collection d2
               ++ [Code.mk new_id session_date code (floor_ms now)
                     (floor_ms now + minutes_valid * US_PER_MINUTE)])%list ->
            get_active_sessions t_sessions d1
            = get_active_sessions t_sessions d2) as Hpicker.
  { intros d1 d2 Hd. unfold get_active_sessions. rewrite Hd.
    rewrite filter_snoc_not by (simpl; lia). reflexivity. }
  split; [apply Hpicker; rewrite Hdb; reflexivity |].
  rewrite Hdb. unfold student_attend.
  destruct (get_client_ip request) as [e | client_ip]; [split; reflexivity |].
  destruct (classify_ip client_ip) as [st msg].
  cbn [code_collection attendance_collection].
  rewrite find_one_app_not by (simpl; lia).
  destruct (find_one _ (code_collection db)) as [c|];
    [destruct (find_one _ (attendance_collection db)) as [a|] |]; simpl;
    (split; [| reflexivity]); do 2 f_equal; apply Hpicker; reflexivity.
Qed.

(** X12.  A new code shows on the teacher's page.  After [create_code]
    has redirected, the page at a time [t] lists the code as it was
    stored (its datetimes cut to the millisecond) among the active ones
    when its stored expiry is after [t] and fewer than 20 older codes
    expire after [t], and among the past ones when its stored expiry is
    no later than [t] and fewer than 30 older codes have expired. *)
Theorem create_code_then_teacher_page (t : Z) :
  exists code,
    let doc :=
      Code.mk new_id session_date code (floor_ms now)
        (floor_ms now + minutes_valid * US_PER_MINUTE) in
    code_collection db1 = (code_collection db ++ [doc])%list
    /\ (t < Code.valid_until doc ->
        (length (filter (fun c => (t < Code.valid_until c)%Z)
                   (code_collection db)) < 20)%nat ->
        doc ∈ active_codes (teacher_page t db1))
    /\ (Code.valid_until doc <= t ->
        (length (filter (fun c => (Code.valid_until c <= t)%Z)
                   (code_collection db)) < 30)%nat ->
        doc ∈ past_codes (teacher_page t db1)).
Proof.
  destruct created_code as (code & _ & Hdb). exists code. intros doc.
  split; [rewrite Hdb; reflexivity |].
  split.
  - intros Ht Hlen.
    pose proof (take_cursor_sort Code.valid_until Asc 20
                  (filter (fun c => t < Code.valid_until c)
                     (code_collection db1))) as Hfs.
    apply first_sorted_all in Hfs.
    + unfold teacher_page. cbn [active_codes]. rewrite Hfs, Hdb. simpl.
      rewrite filter_snoc by exact Ht.
      rewrite elem_of_app, list_elem_of_singleton. right; reflexivity.
    + rewrite Hdb. simpl. rewrite filter_snoc by exact Ht.
      rewrite length_app. simpl. lia.
  - intros Ht Hlen.
    pose proof (take_cursor_sort Code.valid_until Desc 30
                  (filter (fun c => Code.valid_until c <= t)
                     (code_collection db1))) as Hfs.
    apply first_sorted_all in Hfs.
    + unfold teacher_page. cbn [past_codes]. rewrite Hfs, Hdb. simpl.
      rewrite filter_snoc by exact Ht.
      rewrite elem_of_app, list_elem_of_singleton. right; reflexivity.
    + rewrite Hdb. simpl. rewrite filter_snoc by exact Ht.
      rewrite length_app. simpl. lia.
Qed.

(** X13.  A new code can be opened by its identifier.  After
    [create_code] has redirected with an [_id] no stored code had, the
    detail page of a [code_id] that parses to that [_id] is the page of
    the new code as it was stored, its datetimes cut to the
    millisecond, and active exactly while [t] is before the stored
    expiry. *)
Theorem create_code_then_detail (code_id : string) (t : Z) :
  ObjectId code_id = Some new_id ->
  (forall c, c ∈ code_collection db -> Code._id c <> new_id) ->
  exists value page,
    teacher_code_detail code_id t db1 = inr page
    /\ code page
       = Code.mk new_id session_date value (floor_ms now)
           (floor_ms now + minutes_valid * US_PER_MINUTE)
    /\ six_digits value
    /\ is_active page
       = bool_decide (t < floor_ms now + minutes_valid * US_PER_MINUTE).
Proof.
  intros Hid Hfresh. destruct created_code as (value & Hsix & Hdb).
  exists value. unfold teacher_code_detail. rewrite Hid, Hdb.
  cbn [code_collection].
  rewrite find_one_app_fresh by (auto; reflexivity).
  eexists. split; [reflexivity |]. simpl. auto.
Qed.

End CreateThenUse.

(** ** The teacher's views *)

(** X14.  When the detail page fails.  [teacher_code_detail] raises
    exactly when [code_id] does not parse as an [ObjectId] or parses to
    an [_id] that no stored code has; in both cases with status 404 and
    never with anything else. *)
Theorem teacher_code_detail_raises_iff `{Driver} (code_id : string) (now : Z)
  (db : Database) (e : exn) :
  teacher_code_detail code_id now db = inl e
  <-> (ObjectId code_id = None
       /\ e = HTTPException 404 "잘못된 코드 ID 입니다.")
      \/ (exists oid,
            ObjectId code_id = Some oid
            /\ (forall c, c ∈ code_collection db -> Code._id c <> oid)
            /\ e = HTTPException 404 "출석 코드 정보를 찾을 수 없습니다.").
Proof.
  unfold teacher_code_detail. destruct (ObjectId code_id) as [oid|].
  - destruct (find_one _ (code_collection db)) as [c|] eqn:Hfind; split.
    + intros Heq. discriminate Heq.
    + intros [[Hn _] | (oid' & Hid & Hnone & _)]; [discriminate Hn |].
      injection Hid as <-. apply find_one_Some in Hfind as [Hin Hc].
      destruct (Hnone c Hin Hc).
    + intros Heq. injection Heq as <-. right. exists oid.
      split; [reflexivity |]. split; [| reflexivity].
      exact (proj1 (find_one_None _ _) Hfind).
    + intros [[Hn _] | (oid' & _ & _ & ->)]; [discriminate Hn | reflexivity].
  - split.
    + intros Heq. injection Heq as <-. left. auto.
    + intros [[_ ->] | (oid' & Hid & _)]; [reflexivity | discriminate Hid].
Qed.

(** X15.  What the detail page shows.  When [teacher_code_detail]
    returns, its code is a stored code with the [_id] that [code_id]
    parses to; every record of either list is a stored record with
    that code's session date and code value, never one of another
    code; no record of the flagged list is NORMAL; and neither list is
    longer than 500. *)
Theorem teacher_code_detail_shows `{Driver} (code_id : string) (now : Z)
  (db : Database) (page : DetailPage) :
  teacher_code_detail code_id now db = inr page ->
  code page ∈ code_collection db
  /\ ObjectId code_id = Some (Code._id (code page))
  /\ (forall a, a ∈ attendance_list page \/ a ∈ suspicious_list page ->
        a ∈ attendance_collection db
        /\ Attend.session_date a = Code.session_date (code page)
        /\ Attend.attendance_code a = Code.attendance_code (code page))
  /\ (forall a, a ∈ suspicious_list page -> Attend.ip_status a <> NORMAL)
  /\ (length (attendance_list page) <= 500)%nat
  /\ (length (suspicious_list page) <= 500)%nat.
Proof.
  unfold teacher_code_detail. destruct (ObjectId code_id) as [oid|];
    [| intros Heq; discriminate Heq].
  destruct (find_one _ (code_collection db)) as [c|] eqn:Hfind;
    [| intros Heq; discriminate Heq].
  apply find_one_Some in Hfind as [Hin Hid].
  intros Heq. injection Heq as <-. simpl.
  split; [exact Hin |]. split; [congruence |].
  pose proof (take_cursor_sort Attend.timestamp Desc 500
                (filter (fun a => Attend.session_date a = Code.session_date c
                                  /\ Attend.attendance_code a
                                     = Code.attendance_code c)
                   (attendance_collection db))) as Ha.
  pose proof (take_cursor_sort Attend.timestamp Desc 500
                (filter (fun a => Attend.session_date a = Code.session_date c
                                  /\ Attend.attendance_code a
                                     = Code.attendance_code c
                                  /\ Attend.ip_status a <> NORMAL)
                   (attendance_collection db))) as Hs.
  split; [| split; [| split; rewrite length_take; lia]].
  - intros a [Hl | Hl].
    + apply (first_sorted_elem_of _ _ _ _ _ _ Ha) in Hl.
      apply list_elem_of_filter in Hl. tauto.
    + apply (first_sorted_elem_of _ _ _ _ _ _ Hs) in Hl.
      apply list_elem_of_filter in Hl. tauto.
  - intros a Hl. apply (first_sorted_elem_of _ _ _ _ _ _ Hs) in Hl.
    apply list_elem_of_filter in Hl. tauto.
Qed.

(** X16.  The flagged list within the whole one.  When the code of the
    page has no more than 500 records, the flagged list holds exactly
    the records of the attendance list that are not NORMAL. *)
Theorem suspicious_list_of_attendance_list `{Driver} (code_id : string)
  (now : Z) (db : Database) (page : DetailPage) :
  teacher_code_detail code_id now db = inr page ->
  (length (records_of (code page) db) <= 500)%nat ->
  forall a, a ∈ suspicious_list page
            <-> a ∈ attendance_list page /\ Attend.ip_status a <> NORMAL.
Proof.
  unfold teacher_code_detail. destruct (ObjectId code_id) as [oid|];
    [| intros Heq; discriminate Heq].
  destruct (find_one _ (code_collection db)) as [c|];
    [| intros Heq; discriminate Heq].
  intros Heq. injection Heq as <-. simpl. intros Hlen a.
  rewrite <- flagged_of_filter. fold (records_of c db).
  pose proof (take_cursor_sort Attend.timestamp Desc 500 (records_of c db))
    as Ha.
  pose proof (take_cursor_sort Attend.timestamp Desc 500 (flagged_of c db))
    as Hs.
  apply first_sorted_all in Ha; [| exact Hlen].
  apply first_sorted_all in Hs.
  - rewrite Ha, Hs. unfold flagged_of. rewrite list_elem_of_filter. tauto.
  - unfold flagged_of.
    pose proof (length_filter (fun a => Attend.ip_status a <> NORMAL)
                  (records_of c db)). lia.
Qed.

(** X17.  The teacher's page sorts every code into one list.  No code
    is in both lists; and when no more than 20 stored codes are still
    valid and no more than 30 have expired, every stored code is in
    one of the two and the two together are as long as the store. *)
Theorem teacher_page_partition `{Driver} (now : Z) (db : Database) :
  let page := teacher_page now db in
  (forall c, c ∈ active_codes page -> c ∈ past_codes page -> False)
  /\ ((length (filter (fun c => (now < Code.valid_until c)%Z)
                 (code_collection db)) <= 20)%nat ->
      (length (filter (fun c => (Code.valid_until c <= now)%Z)
                 (code_collection db)) <= 30)%nat ->
      (forall c, c ∈ code_collection db
                 <-> c ∈ active_codes page \/ c ∈ past_codes page)
      /\ (length (active_codes page) + length (past_codes page))%nat
         = length (code_collection db)).
Proof.
  intros page.
  pose proof (take_cursor_sort Code.valid_until Asc 20
                (filter (fun c => now < Code.valid_until c)
                   (code_collection db))) as Ha.
  pose proof (take_cursor_sort Code.valid_until Desc 30
                (filter (fun c => Code.valid_until c <= now)
                   (code_collection db))) as Hp.
  split.
  - intros c Hca Hcp.
    apply (first_sorted_elem_of _ _ _ _ _ _ Ha), list_elem_of_filter in Hca.
    apply (first_sorted_elem_of _ _ _ _ _ _ Hp), list_elem_of_filter in Hcp.
    lia.
  - intros Hla Hlp.
    apply first_sorted_all in Ha; [| exact Hla].
    apply first_sorted_all in Hp; [| exact Hlp].
    subst page. unfold teacher_page. cbn [active_codes past_codes]. split.
    + intros c. rewrite Ha, Hp, !list_elem_of_filter.
      destruct (Z_lt_dec now (Code.valid_until c)); split; try tauto.
      intros Hc. right. split; [lia | exact Hc].
    + rewrite Ha, Hp. clear. induction (code_collection db) as [|c l IH].
      * reflexivity.
      * rewrite !filter_cons.
        destruct (decide (now < Code.valid_until c));
          destruct (decide (Code.valid_until c <= now)); simpl; lia.
Qed.

(** ** The picker *)

Lemma first_per_date_nil_iff seen codes :
  first_per_date seen codes = []
  <-> forall c, c ∈ codes -> Code.session_date c ∈ seen.
Proof.
  revert seen. induction codes as [|c rest IH]; intros seen; simpl.
  - split; [intros _ c Hc; inversion Hc | reflexivity].
  - destruct (decide (Code.session_date c ∈ seen)) as [Hin | Hout].
    + rewrite IH. split.
      * intros Hall c' Hc'. apply elem_of_cons in Hc' as [-> | Hc']; auto.
      * intros Hall c' Hc'. apply Hall, list_elem_of_further, Hc'.
    + split; [intros Heq; discriminate Heq |].
      intros Hall. destruct Hout. apply Hall, list_elem_of_here.
Qed.

(** X18.  The picker of the student's page is empty exactly when no
    stored code is valid at [now]; it never has more than 100 entries,
    nor more entries than there are valid codes. *)
Theorem student_page_sessions_empty_iff `{Driver} (now : Z) (db : Database) :
  let valid := filter (fun c => (now < Code.valid_until c)%Z)
                 (code_collection db) in
  (sessions (student_page now db) = [] <-> valid = [])
  /\ (length (sessions (student_page now db)) <= 100)%nat
  /\ (length (sessions (student_page now db)) <= length valid)%nat.
Proof.
  intros valid. unfold student_page. cbn [sessions]. unfold get_active_sessions.
  fold valid. rewrite sessions_loop_first_per_date, app_nil_l.
  set (codes := take 100 (cursor_sort Code.valid_until Asc valid)).
  assert (length codes = Nat.min 100 (length valid)) as Hlen.
  { subst codes.
    rewrite length_take, (Permutation_length (cursor_sort_perm _ _ _ valid)).
    reflexivity. }
  pose proof (sublist_length _ _ (first_per_date_sublist ∅ codes)) as Hsub.
  rewrite length_fmap.
  split; [| lia].
  assert (entry_of <$> first_per_date ∅ codes = []
          <-> first_per_date ∅ codes = []) as ->.
  { split; [apply fmap_nil_inv | intros ->; reflexivity]. }
  rewrite first_per_date_nil_iff. split.
  - intros Hall. destruct codes as [|c codes'] eqn:Hc.
    + destruct valid; [reflexivity | simpl in Hlen; lia].
    + specialize (Hall c (list_elem_of_here _ _)). set_solver.
  - intros Hv. rewrite Hv in Hlen. destruct codes; [| simpl in Hlen; lia].
    intros c Hc. inversion Hc.
Qed.

(** X19.  Every entry of the picker can be used.  An entry stands for a
    stored code of its session date that is valid at [now] and whose
    expiry is the time the entry shows; a submission of that code for
    that date, at any time before the expiry, is not refused as invalid. *)
Theorem picker_entry_accepted `{Driver} (now : Z) (db : Database)
  (e : Session.entry) :
  e ∈ get_active_sessions now db ->
  exists c,
    c ∈ code_collection db
    /\ Code.session_date c = Session.session_date e
    /\ now < Code.valid_until c
    /\ Session.end_str e = strftime_md_HM (Code.valid_until c)
    /\ forall request student_name t t_sessions client_ip,
         get_client_ip request = inr client_ip ->
         t < Code.valid_until c ->
         exists page,
           (student_attend request student_name (Session.session_date e)
              (Code.attendance_code c) t t_sessions db).1 = inr page
           /\ (result page = Some (result_text Recorded)
               \/ result page = Some (result_text AlreadyRecorded)).
Proof.
  unfold get_active_sessions.
  rewrite sessions_loop_first_per_date, app_nil_l.
  intros He. apply list_elem_of_fmap in He as (c & -> & Hc).
  eapply elem_of_sublist in Hc; [| apply first_per_date_sublist].
  apply (first_sorted_elem_of _ _ _ _ _ _
           (take_cursor_sort Code.valid_until Asc 100 _)) in Hc.
  apply list_elem_of_filter in Hc as [Hvalid Hin].
  exists c. split; [exact Hin |]. split; [reflexivity |].
  split; [exact Hvalid |]. split; [reflexivity |].
  intros request student_name t t_sessions client_ip Hip Ht. simpl.
  assert (has_active_code db (Code.session_date c) (Code.attendance_code c) t)
    as Hact by (exists c; auto).
  destruct (student_attend_cases request student_name (Code.session_date c)
              (Code.attendance_code c) t t_sessions db client_ip Hip)
    as [(Hno & _) | [(_ & _ & Hout) | (_ & _ & Hout)]]; [contradiction | |];
    rewrite Hout; eexists; (split; [reflexivity |]); simpl; auto.
Qed.

(** ** What holds of every database the handlers make *)

Lemma has_active_code_codes db db' sd ac t :
  (forall c, c ∈ code_collection db -> c ∈ code_collection db') ->
  has_active_code db sd ac t -> has_active_code db' sd ac t.
Proof. intros Hsub (c & Hin & Hc). exists c. auto. Qed.

Section Reachable.
Context `{Driver}.

(** What one step keeps, for a property of the database that a new
    code and a new record each keep. *)
Lemma reachable_ind_steps (Inv : Database -> Prop) :
  Inv {| code_collection := []; attendance_collection := [] |} ->
  (forall db doc, Inv db -> six_digits (Code.attendance_code doc) ->
     Inv {| code_collection := code_collection db ++ [doc];
            attendance_collection := attendance_collection db |}) ->
  (forall db student_name session_date attendance_code client_ip now,
     Inv db ->
     has_active_code db session_date attendance_code now ->
     ~ has_record db student_name session_date attendance_code ->
     Inv (with_attendance db
            (Attend.mk student_name session_date attendance_code client_ip
               (classify_ip client_ip).1 (classify_ip client_ip).2
               (floor_ms now)))) ->
  forall db, reachable db -> Inv db.
Proof.
  intros Hempty Hcode Hrecord db Hreach.
  induction Hreach
    as [| db random new_id sd m now r db' _ IH Hstep
        | db request name sd ac now now' r db' _ IH Hstep].
  - exact Hempty.
  - destruct (create_code_inv _ _ _ _ _ _ _ _ Hstep)
      as [(e & _ & -> & _) | (code & _ & Hsix & _ & ->)]; [exact IH |].
    apply Hcode; [exact IH | exact Hsix].
  - destruct (get_client_ip request) as [e | client_ip] eqn:Hip.
    { unfold student_attend in Hstep. rewrite Hip in Hstep.
      injection Hstep as _ <-. exact IH. }
    destruct (student_attend_cases request name sd ac now now' db client_ip Hip)
      as [(_ & Hout) | [(_ & _ & Hout) | (Hact & Hnew & Hout)]];
      rewrite Hstep in Hout; injection Hout as _ ->; [exact IH | exact IH |].
    apply Hrecord; assumption.
Qed.

(** X20.  No student is recorded twice for a code: in every database
    made from the empty one by calls of [create_code] and
    [student_attend], one after the other, no two records carry the
    same (student_name, session_date, code) triple. *)
Theorem reachable_unique_triples (db : Database) :
  reachable db -> unique_triples db.
Proof.
  apply reachable_ind_steps.
  - constructor.
  - intros db0 doc Hinv _. exact Hinv.
  - intros db0 name sd ac ip now Hinv _ Hnew.
    apply unique_triples_with_attendance; [exact Hinv | exact Hnew].
Qed.

(** X21.  Every record was made in time: in every such database each
    attendance record has a stored code with its session date and code
    value that expires after the record's timestamp. *)
Theorem reachable_records_in_time (db : Database) :
  reachable db -> records_in_time db.
Proof.
  apply reachable_ind_steps.
  - intros a Ha. inversion Ha.
  - intros db0 doc Hinv _ a Ha.
    eapply has_active_code_codes; [| apply (Hinv a Ha)].
    intros c Hc. simpl. rewrite elem_of_app. left; exact Hc.
  - intros db0 name sd ac ip now Hinv Hact _ a Ha. simpl in Ha.
    apply elem_of_app in Ha as [Ha | Ha].
    + eapply has_active_code_codes; [| apply (Hinv a Ha)]. auto.
    + apply list_elem_of_singleton in Ha. subst a. simpl.
      destruct Hact as (c & Hin & Hs & Hc & Hlt). exists c.
      pose proof (floor_ms_le now). repeat split; auto. lia.
Qed.

(** X22.  Every record is classified by its own address: in every such
    database the status and the message of each attendance record are
    those [classify_ip] gives the address stored in the record. *)
Theorem reachable_records_classified (db : Database) :
  reachable db -> records_classified db.
Proof.
  apply reachable_ind_steps.
  - intros a Ha. inversion Ha.
  - intros db0 doc Hinv _ a Ha. exact (Hinv a Ha).
  - intros db0 name sd ac ip now Hinv _ _ a Ha. simpl in Ha.
    apply elem_of_app in Ha as [Ha | Ha]; [exact (Hinv a Ha) |].
    apply list_elem_of_singleton in Ha. subst a. simpl.
    destruct (classify_ip ip); reflexivity.
Qed.

(** X23.  Every stored code is six digits: in every such database the
    code value of each code is a string of six characters "0" to "9",
    whatever the generator drew. *)
Theorem reachable_codes_six_digits (db : Database) :
  reachable db -> codes_six_digits db.
Proof.
  apply reachable_ind_steps.
  - intros c Hc. inversion Hc.
  - intros db0 doc Hinv Hsix c Hc. simpl in Hc.
    apply elem_of_app in Hc as [Hc | Hc]; [exact (Hinv c Hc) |].
    apply list_elem_of_singleton in Hc. subst c. exact Hsix.
  - intros db0 name sd ac ip now Hinv _ _ c Hc. exact (Hinv c Hc).
Qed.

End Reachable.

(** * The further properties at work *)

Lemma get_client_ip_forwarded_entry_witness :
  exists entry l ip r,
    get_client_ip alice_request = inr ip
    /\ (" 210.108.18.50 , 10.0.0.7" = entry
        \/ exists rest,
             " 210.108.18.50 , 10.0.0.7" = (entry ++ String "," rest)%string)
    /\ entry = (l ++ ip ++ r)%string
    /\ all_space l /\ all_space r /\ trimmed ip
    /\ ("," : ascii) ∉ list_ascii_of_string ip.
Proof.
  apply (get_client_ip_forwarded_entry alice_request
           " 210.108.18.50 , 10.0.0.7").
  - reflexivity.
  - discriminate.
Defined.

Lemma get_client_ip_empty_from_header_witness :
  exists xff,
    headers_get (headers blank_entry_request) "x-forwarded-for" = Some xff
    /\ xff <> ""
    /\ all_space (split_first "," xff).
Proof.
  apply (get_client_ip_empty_from_header blank_entry_request). reflexivity.
Defined.

Lemma db_alice_unique : unique_triples db_alice.
Proof. apply (bool_decide_unpack _). vm_compute. exact I. Defined.

(** Bob is recorded at 09:05, beside Alice: two records, two triples. *)
Lemma student_attend_keeps_unique_witness :
  unique_triples
    (student_attend_commit
       (Some (Attend.mk "Bob" "2024-03-01" "482913" "8.8.8.8" SUSPICIOUS
                (classify_ip "8.8.8.8").2 (T0 + minutes 5)))
       db_alice).
Proof.
  apply (student_attend_keeps_unique bob_request "Bob" "2024-03-01" "482913"
           (T0 + minutes 5) db_alice db_alice (result_text Recorded)
           (classify_ip "8.8.8.8").2).
  - vm_compute. reflexivity.
  - reflexivity.
  - exact db_alice_unique.
Defined.

(** Alice submits from two devices in the same second, and the second
    look-up runs before the first insert: two records for one triple. *)
Lemma student_attend_race_witness :
  exists d1 d2,
    student_attend_decide alice_request "Alice" "2024-03-01" "482913"
      (T0 + minutes 1) db_created
    = inr (result_text Recorded, (classify_ip "210.108.18.50").2, Some d1)
    /\ student_attend_decide bob_request "Alice" "2024-03-01" "482913"
         (T0 + minutes 1 + 1000) db_created
       = inr (result_text Recorded, (classify_ip "8.8.8.8").2, Some d2)
    /\ attendance_collection
         (student_attend_commit (Some d2)
            (student_attend_commit (Some d1) db_created))
       = (attendance_collection db_created ++ [stored d1; stored d2])%list
    /\ triple_of (stored d1) = ("Alice", "2024-03-01", "482913")
    /\ triple_of (stored d2) = ("Alice", "2024-03-01", "482913")
    /\ ~ unique_triples
           (student_attend_commit (Some d2)
              (student_attend_commit (Some d1) db_created)).
Proof.
  apply (student_attend_race alice_request bob_request "Alice" "2024-03-01"
           "482913" (T0 + minutes 1) (T0 + minutes 1 + 1000) db_created
           "210.108.18.50" "8.8.8.8").
  - reflexivity.
  - reflexivity.
  - apply sample_code_active_at; [apply list_elem_of_here | reflexivity].
  - apply sample_code_active_at; [apply list_elem_of_here | reflexivity].
  - intros (a & Hin & _). inversion Hin.
Defined.

(** Alice at 09:01 from the campus, then at 09:02 through Bob's line. *)
Lemma student_attend_twice_witness :
  let db1 :=
    (student_attend (H := merge_sort_driver) alice_request
       "Alice" "2024-03-01" "482913" (T0 + minutes 1) (T0 + minutes 1)
       db_created).2 in
  has_record db1 "Alice" "2024-03-01" "482913"
  /\ student_attend (H := merge_sort_driver) bob_request
       "Alice" "2024-03-01" "482913" (T0 + minutes 2) (T0 + minutes 2) db1
     = (inr {| result := Some (result_text AlreadyRecorded);
               ip_status_message := Some (classify_ip "8.8.8.8").2;
               sessions := get_active_sessions (H := merge_sort_driver)
                             (T0 + minutes 2) db1 |}, db1).
Proof.
  apply (student_attend_twice (H := merge_sort_driver) alice_request
           bob_request "Alice" "2024-03-01" "482913"
           (T0 + minutes 1) (T0 + minutes 1) (T0 + minutes 2) (T0 + minutes 2)
           db_created "210.108.18.50" "8.8.8.8").
  - reflexivity.
  - reflexivity.
  - apply sample_code_active_at; [apply list_elem_of_here | reflexivity].
  - apply sample_code_active_at; [apply list_elem_of_here | reflexivity].
Defined.

Lemma generate_code_digits_witness :
  exists code,
    generate_code sample_draws 4 = inr code
    /\ String.length code = 4%nat
    /\ Forall is_digit (list_ascii_of_string code)
    /\ (4%nat = 0%nat -> code = "").
Proof. apply (generate_code_digits sample_draws 4 sample_draws_unit). Defined.

Example generate_code_sample :
  generate_code sample_draws 4 = inr "4829"
  /\ generate_code sample_draws 0 = inr "".
Proof. split; vm_compute; reflexivity. Qed.

Lemma create_code_raises_iff_witness :
  (create_code sample_draws sample_oid "2024-03-01" 10000000000 T0
     empty_db).1 = inl OverflowError
  <-> OverflowError = OverflowError
      /\ ~ (0 <= T0 + 10000000000 * US_PER_MINUTE <= DATETIME_MAX).
Proof.
  apply (create_code_raises_iff sample_draws sample_oid "2024-03-01"
           10000000000 T0 empty_db OverflowError sample_draws_unit T0_datetime).
Defined.

Lemma create_code_then_attend_witness :
  exists code page,
    code_collection db_created
    = (code_collection empty_db
       ++ [Code.mk sample_oid "2024-03-01" code T0
             (T0 + 10 * US_PER_MINUTE)])%list
    /\ (student_attend (H := merge_sort_driver) alice_request "Alice"
          "2024-03-01" code (T0 + minutes 9) (T0 + minutes 9) db_created).1
       = inr page
    /\ (result page = Some (result_text Recorded)
        \/ result page = Some (result_text AlreadyRecorded)).
Proof.
  apply (create_code_then_attend (H := merge_sort_driver) sample_draws
           sample_oid "2024-03-01" 10 T0 empty_db db_created _
           create_code_sample alice_request "Alice"
           (T0 + minutes 9) (T0 + minutes 9) "210.108.18.50").
  - reflexivity.
  - reflexivity.
Defined.

(** A code made at 09:20 for the ten minutes before: the picker and the
    answers at 09:21 are those of the database without it. *)
Lemma create_code_late :
  create_code sample_draws (Code._id second_code) "2024-03-02" (-10)
    (T0 + minutes 20) db_created
  = (inr {| url := "/teacher"; status_code := 303 |}, db_two_late).
Proof. vm_compute. reflexivity. Qed.

Lemma create_code_expired_at_birth_witness :
  get_active_sessions (H := merge_sort_driver) (T0 + minutes 21) db_two_late
  = get_active_sessions (H := merge_sort_driver) (T0 + minutes 21) db_created
  /\ (student_attend (H := merge_sort_driver) alice_request "Alice"
        "2024-03-02" "482913" (T0 + minutes 21) (T0 + minutes 21)
        db_two_late).1
     = (student_attend (H := merge_sort_driver) alice_request "Alice"
          "2024-03-02" "482913" (T0 + minutes 21) (T0 + minutes 21)
          db_created).1
  /\ attendance_collection
       (student_attend (H := merge_sort_driver) alice_request "Alice"
          "2024-03-02" "482913" (T0 + minutes 21) (T0 + minutes 21)
          db_two_late).2
     = attendance_collection
         (student_attend (H := merge_sort_driver) alice_request "Alice"
            "2024-03-02" "482913" (T0 + minutes 21) (T0 + minutes 21)
            db_created).2.
Proof.
  apply (create_code_expired_at_birth (H := merge_sort_driver) sample_draws
           (Code._id second_code) "2024-03-02" (-10) (T0 + minutes 20) db_created
           db_two_late _ create_code_late alice_request "Alice" "2024-03-02"
           "482913" (T0 + minutes 21) (T0 + minutes 21)).
  - discriminate.
  - discriminate.
  - discriminate.
Defined.

Lemma create_code_then_teacher_page_witness :
  exists code,
    let doc :=
      Code.mk sample_oid "2024-03-01" code T0 (T0 + 10 * US_PER_MINUTE) in
    code_collection db_created = (code_collection empty_db ++ [doc])%list
    /\ (T0 + minutes 5 < Code.valid_until doc ->
        (length (filter (fun c => (T0 + minutes 5 < Code.valid_until c)%Z)
                   (code_collection empty_db)) < 20)%nat ->
        doc ∈ active_codes
                (teacher_page (H := merge_sort_driver) (T0 + minutes 5)
                   db_created))
    /\ (Code.valid_until doc <= T0 + minutes 5 ->
        (length (filter (fun c => (Code.valid_until c <= T0 + minutes 5)%Z)
                   (code_collection empty_db)) < 30)%nat ->
        doc ∈ past_codes
                (teacher_page (H := merge_sort_driver) (T0 + minutes 5)
                   db_created)).
Proof.
  apply (create_code_then_teacher_page (H := merge_sort_driver) sample_draws
           sample_oid "2024-03-01" 10 T0 empty_db db_created _
           create_code_sample (T0 + minutes 5)).
Defined.

Lemma create_code_then_detail_witness :
  exists value page,
    teacher_code_detail (H := merge_sort_driver) sample_code_id
      (T0 + minutes 5) db_created = inr page
    /\ code page
       = Code.mk sample_oid "2024-03-01" value T0 (T0 + 10 * US_PER_MINUTE)
    /\ six_digits value
    /\ is_active page = bool_decide (T0 + minutes 5 < T0 + 10 * US_PER_MINUTE).
Proof.
  apply (create_code_then_detail (H := merge_sort_driver) sample_draws
           sample_oid "2024-03-01" 10 T0 empty_db db_created _
           create_code_sample sample_code_id (T0 + minutes 5)).
  - reflexivity.
  - intros c Hc. inversion Hc.
Defined.

Lemma review_page_shown :
  teacher_code_detail (H := merge_sort_driver) sample_code_id
    (T0 + minutes 5) db_review = inr review_page.
Proof. vm_compute. reflexivity. Qed.

Lemma teacher_code_detail_shows_witness :
  code review_page ∈ code_collection db_review
  /\ ObjectId (Driver := merge_sort_driver) sample_code_id
     = Some (Code._id (code review_page))
  /\ (forall a, a ∈ attendance_list review_page
                \/ a ∈ suspicious_list review_page ->
        a ∈ attendance_collection db_review
        /\ Attend.session_date a = Code.session_date (code review_page)
        /\ Attend.attendance_code a = Code.attendance_code (code review_page))
  /\ (forall a, a ∈ suspicious_list review_page ->
                Attend.ip_status a <> NORMAL)
  /\ (length (attendance_list review_page) <= 500)%nat
  /\ (length (suspicious_list review_page) <= 500)%nat.
Proof.
  apply (teacher_code_detail_shows (H := merge_sort_driver) sample_code_id
           (T0 + minutes 5) db_review review_page review_page_shown).
Defined.

(** Alice's record, NORMAL, is on the attendance list and so not on the
    flagged one. *)
Lemma suspicious_list_of_attendance_list_witness :
  alice_doc ∈ suspicious_list review_page
  <-> alice_doc ∈ attendance_list review_page
      /\ Attend.ip_status alice_doc <> NORMAL.
Proof.
  apply (suspicious_list_of_attendance_list (H := merge_sort_driver)
           sample_code_id (T0 + minutes 5) db_review review_page
           review_page_shown).
  vm_compute. repeat constructor.
Defined.

Lemma picker_entry_accepted_witness :
  exists c,
    c ∈ code_collection db_created
    /\ Code.session_date c = "2024-03-01"
    /\ T0 + minutes 1 < Code.valid_until c
    /\ "03/01 09:10" = strftime_md_HM (Code.valid_until c)
    /\ forall request student_name t t_sessions client_ip,
         get_client_ip request = inr client_ip ->
         t < Code.valid_until c ->
         exists page,
           (student_attend (H := merge_sort_driver) request student_name
              "2024-03-01" (Code.attendance_code c) t t_sessions
              db_created).1 = inr page
           /\ (result page = Some (result_text Recorded)
               \/ result page = Some (result_text AlreadyRecorded)).
Proof.
  apply (picker_entry_accepted (H := merge_sort_driver) (T0 + minutes 1)
           db_created (Session.mk "2024-03-01" "03/01 09:10")).
  vm_compute. apply list_elem_of_here.
Defined.

(** The morning so far: the code is made, then Alice is recorded. *)
Lemma reachable_db_alice : reachable (H := merge_sort_driver) db_alice.
Proof.
  eapply (reach_attend (H := merge_sort_driver) db_created alice_request
            "Alice" "2024-03-01" "482913" (T0 + minutes 1) (T0 + minutes 1)).
  - eapply reach_create; [apply reach_empty | exact create_code_sample].
  - vm_compute. reflexivity.
Qed.

Lemma reachable_unique_triples_witness : unique_triples db_alice.
Proof.
  exact (reachable_unique_triples (H := merge_sort_driver) db_alice
           reachable_db_alice).
Defined.

Lemma reachable_records_in_time_witness : records_in_time db_alice.
Proof.
  exact (reachable_records_in_time (H := merge_sort_driver) db_alice
           reachable_db_alice).
Defined.

Lemma reachable_records_classified_witness : records_classified db_alice.
Proof.
  exact (reachable_records_classified (H := merge_sort_driver) db_alice
           reachable_db_alice).
Defined.

Lemma reachable_codes_six_digits_witness : codes_six_digits db_alice.
Proof.
  exact (reachable_codes_six_digits (H := merge_sort_driver) db_alice
           reachable_db_alice).
Defined.
